(** * serpai: the poll-and-visualize session of [app.py]

    A shallow embedding of the Streamlit script [src/app.py]: the tracking
    loop ([record_serp] and the [for i in range(iterations)] loop), the
    table merge shared by the tracking and the upload paths, the derived
    columns ([sentiment], [sentiment_positive], [bubble_size],
    [title_length], [sentiment_size]) and the keyword filter; then the
    sidebar inputs (credentials and query list), the word-cloud text and the
    script as one run over the session state.  The charts are left out.

    What the script delegates to libraries is kept apart from what it does
    itself.  The lexicon scorer ([TextBlob(..).sentiment.polarity]), the
    regular-expression engine behind [Series.str.contains], the timestamp
    parser ([pd.to_datetime(.., errors="coerce")]), the search API
    ([adv.serp_goog]) and the wall clock are variables of the sections
    below; the data-frame operations the script calls ([pd.concat], [drop],
    [set_index], boolean-mask selection, column assignment, [Series.str.len],
    and what [to_csv] and [pd.read_csv] do to a cell) are written out with
    the behaviour pandas 2.x has on object columns.

    Floating-point columns are modelled over exact rationals [Q]; how a
    number is printed and read is a variable as well. *)

From Stdlib Require Import QArith Qround Ascii Lqa.
From stdpp Require Import gmap strings list fin_maps pretty.

Local Open Scope string_scope.

(** ** Cells, exceptions, tables *)

(** One cell of a data frame: a text, a number, a boolean, or pandas'
    missing value. *)
Inductive cell : Type :=
  | CStr (s : string)
  | CNum (q : Q)
  | CBool (b : bool)
  | CNaN.

(** The exceptions the modelled statements can raise. *)
Inductive exn : Type :=
  | KeyError (column : string)
  | ValueError (msg : string)
  | TypeError (msg : string)
  | ReError (pattern : string)
  | ApiError.

Inductive result (A : Type) : Type :=
  | Ok (a : A)
  | Raise (e : exn).
Arguments Ok {A} a.
Arguments Raise {A} e.

#[global] Instance result_ret : MRet result := fun A a => Ok a.
#[global] Instance result_bind : MBind result := fun A B f r =>
  match r with
  | Ok a => f a
  | Raise e => Raise e
  end.

#[global] Instance result_fmap : FMap result := fun A B f r =>
  match r with
  | Ok a => Ok (f a)
  | Raise e => Raise e
  end.

(** [mapM] for [result]: the first exception wins, left to right. *)
Fixpoint result_mapM {A B : Type} (f : A → result B) (l : list A) : result (list B) :=
  match l with
  | [] => Ok []
  | a :: l' => b ← f a; bs ← result_mapM f l'; Ok (b :: bs)
  end.

(** A data frame: the index labels and the named columns.  Columns are keyed
    by name (pandas keeps names unique on the paths used here). *)
Record DataFrame : Type := mkDF {
  index : list cell;
  columns : gmap string (list cell)
}.

Definition nrows (df : DataFrame) : nat := length (index df).

(** Every column is as long as the index. *)
Definition wf (df : DataFrame) : Prop :=
  map_Forall (λ _ col, length col = nrows df) (columns df).

#[global] Instance wf_dec (df : DataFrame) : Decision (wf df) :=
  ltac:(unfold wf; apply _).

(** [df[name]] *)
Definition getcol (name : string) (df : DataFrame) : result (list cell) :=
  match columns df !! name with
  | Some col => Ok col
  | None => Raise (KeyError name)
  end.

(** [df[name] = series]: replaces the column when it exists, adds it
    otherwise.  Every assignment of the script takes its right-hand side from
    a column of the same frame, so pandas stores the values position by
    position. *)
Definition setcol (name : string) (col : list cell) (df : DataFrame) : DataFrame :=
  mkDF (index df) (<[name := col]> (columns df)).

(** [df[name] = scalar] *)
Definition setcol_scalar (name : string) (c : cell) (df : DataFrame) : DataFrame :=
  mkDF (index df) (<[name := replicate (nrows df) c]> (columns df)).

(** The rows of a table, top to bottom: the index label with the row's cell
    in every column. *)
Definition row : Type := cell * gmap string cell.

Fixpoint rows_from (idx : list cell) (cols : gmap string (list cell)) : list row :=
  match idx with
  | [] => []
  | i :: idx' => (i, omap head cols) :: rows_from idx' (tail <$> cols)
  end.

Definition rows_of (df : DataFrame) : list row := rows_from (index df) (columns df).

(** ** The data-frame operations the script calls *)

(** The column [name] of [df], or as many missing values as [df] has rows:
    what [pd.concat] contributes for a frame that lacks the column. *)
Definition column_or_nan (name : string) (df : DataFrame) : list cell :=
  default (replicate (nrows df) CNaN) (columns df !! name).

(** The fresh [RangeIndex] of [ignore_index=True]. *)
Definition range_index (n : nat) : list cell :=
  (λ i : nat, CNum (inject_Z (Z.of_nat i))) <$> seq 0 n.

Definition column_names (dfs : list DataFrame) : gset string :=
  ⋃ ((λ df, dom (columns df)) <$> dfs).

(** [pd.concat(dfs, ignore_index=True)]: the frames stacked in order, over
    the union of their columns. *)
Definition concat (dfs : list DataFrame) : result DataFrame :=
  match dfs with
  | [] => Raise (ValueError "No objects to concatenate")
  | _ :: _ =>
      Ok (mkDF (range_index (sum_list (nrows <$> dfs)))
            (set_to_map (λ name, (name, dfs ≫= column_or_nan name))
               (column_names dfs)))
  end.

(** [df.drop(columns=name, inplace=True, errors="ignore")] *)
Definition drop_column (name : string) (df : DataFrame) : DataFrame :=
  mkDF (index df) (delete name (columns df)).

(** [df.set_index(name, inplace=True)] *)
Definition set_index (name : string) (df : DataFrame) : result DataFrame :=
  col ← getcol name df;
  Ok (mkDF col (delete name (columns df))).

(** [df.index = idx] *)
Definition assign_index (idx : list cell) (df : DataFrame) : result DataFrame :=
  if decide (length idx = nrows df)
  then Ok (mkDF idx (columns df))
  else Raise (ValueError "Length mismatch").

(** Selection of the positions a boolean mask marks. *)
Fixpoint select {A : Type} (mask : list bool) (l : list A) : list A :=
  match mask, l with
  | b :: mask', x :: l' => if b then x :: select mask' l' else select mask' l'
  | _, _ => []
  end.

(** An entry of the mask [Series.str.contains] returns: a boolean, or NaN
    where the cell is not a text. *)
Inductive mval : Type :=
  | MBool (b : bool)
  | MNa.

Definition mask_bool (v : mval) : result bool :=
  match v with
  | MBool b => Ok b
  | MNa => Raise (ValueError "Cannot mask with non-boolean array containing NA / NaN values")
  end.

(** The rows of [df] a boolean mask marks, as a table of its own. *)
Definition selected (bs : list bool) (df : DataFrame) : DataFrame :=
  mkDF (select bs (index df)) (select bs <$> columns df).

(** [df[mask].copy()] *)
Definition getitem_mask (mask : list mval) (df : DataFrame) : result DataFrame :=
  bs ← result_mapM mask_bool mask;
  Ok (selected bs df).

(** [left | right] on two masks.  pandas evaluates the operator entry by
    entry and then fills what is missing with [False]: an entry whose left
    operand is NaN comes out [False], a NaN on the right counts as [False]. *)
Definition mask_or (a b : mval) : mval :=
  match a with
  | MNa => MBool false
  | MBool x => MBool (x || match b with MBool y => y | MNa => false end)
  end.

(** [Series.str.len()] on one cell. *)
Definition str_len (c : cell) : cell :=
  match c with
  | CStr s => CNum (inject_Z (Z.of_nat (String.length s)))
  | _ => CNaN
  end.

(** [s * k] for a Python string. *)
Fixpoint str_repeat (s : string) (k : nat) : string :=
  match k with
  | O => ""
  | S k' => s +:+ str_repeat s k'
  end.

(** [cell * k] and [cell + k] for an integer literal [k], as Python computes
    them entry by entry. *)
Definition cell_mul (c : cell) (k : Z) : cell :=
  match c with
  | CNum q => CNum (q * inject_Z k)
  | CBool b => CNum ((if b then 1 else 0) * inject_Z k)
  | CStr s => CStr (str_repeat s (Z.to_nat k))
  | CNaN => CNaN
  end.

Definition cell_add (c : cell) (k : Z) : result cell :=
  match c with
  | CNum q => Ok (CNum (q + inject_Z k))
  | CBool b => Ok (CNum ((if b then 1 else 0) + inject_Z k))
  | CStr _ => Raise (TypeError "can only concatenate str (not int) to str")
  | CNaN => Ok CNaN
  end.

(** One entry of [Series.str.contains]: whether the pattern is found in a
    text, NaN for a cell that is no text. *)
Definition cell_contains (search : string → bool) (c : cell) : mval :=
  match c with
  | CStr s => MBool (search s)
  | _ => MNa
  end.

(** [cell * 20 + 10] on a column of numbers. *)
Definition scaled (c : cell) : cell :=
  match c with
  | CNum q => CNum (q * 20 + 10)
  | _ => CNaN
  end.

Definition is_number (c : cell) : Prop := ∃ q, c = CNum q.

(** The choices of the [selectbox] "Filter results by:". *)
Inductive filter_field : Type :=
  | SearchTerms
  | Title
  | Both.

(** ** The world of the tracking loop *)

(** What the loop does to the outside, in the order it happens. *)
Inductive event : Type :=
  | EvInfo (i n : nat)              (* st.info("Recording iteration i/n") *)
  | EvFetch (q : list string)       (* adv.serp_goog(q=queries, ...) *)
  | EvWrite (path : string)         (* df.to_csv(path) *)
  | EvSleep (secs : nat)            (* time.sleep(interval) *)
  | EvSuccess.                      (* st.success(...) *)

(** The world: how many snapshots were requested so far (the clock and the
    API answer by request number), the files on disk, and the trace. *)
Record world : Type := mkWorld {
  calls : nat;
  files : gmap string DataFrame;
  trace : list event
}.

(** Statements that change the world and may raise; what was done before an
    exception stays done. *)
Definition M (A : Type) : Type := world → result A * world.

#[global] Instance M_ret : MRet M := λ A a w, (Ok a, w).
#[global] Instance M_bind : MBind M := λ A B f m w,
  match m w with
  | (Ok a, w') => f a w'
  | (Raise e, w') => (Raise e, w')
  end.

(** A statement that leaves the world alone. *)
Definition lift_result {A : Type} (r : result A) : M A := λ w, (r, w).

Definition emit (e : event) : M unit :=
  λ w, (Ok tt, mkWorld (calls w) (files w) (trace w ++ [e])).

Definition is_fetch (e : event) : bool :=
  match e with EvFetch _ => true | _ => false end.
Definition is_write (e : event) : bool :=
  match e with EvWrite _ => true | _ => false end.
Definition is_sleep (e : event) : bool :=
  match e with EvSleep _ => true | _ => false end.

Definition count_events (p : event → bool) (t : list event) : nat :=
  length (List.filter p t).

(** ** Example instances of the external collaborators

    Small executable instances, used to run the model on concrete inputs. *)

(** A scorer whose lexicon knows no word: every text is neutral. *)
Definition neutral_polarity (s : string) : Q := 0%Q.

(** [str(x)] of a number, exact on the whole numbers 0, 1, 2, ... *)
Definition repr_whole (q : Q) : string :=
  pretty (Z.to_N (Qfloor q)) +:+ ".0".

Definition is_meta (a : ascii) : bool :=
  bool_decide (a ∈ String.list_ascii_of_string ".^$*+?{}[]\|()").

Definition lower (a : ascii) : ascii :=
  let n := nat_of_ascii a in
  if bool_decide (65 ≤ n ∧ n ≤ 90)%nat then ascii_of_nat (n + 32) else a.

Fixpoint prefix_ci (p s : string) : bool :=
  match p, s with
  | EmptyString, _ => true
  | String a p', String b s' =>
      bool_decide (lower a = lower b) && prefix_ci p' s'
  | String _ _, EmptyString => false
  end.

Fixpoint contains_ci (p s : string) : bool :=
  prefix_ci p s ||
  match s with
  | EmptyString => false
  | String _ s' => contains_ci p s'
  end.

(** [re.compile(pat, re.IGNORECASE).search] for a pattern without
    metacharacters, where it is a case-insensitive substring search.  Any
    other pattern is outside this instance and is turned down. *)
Definition literal_engine (pat : string) : option (string → bool) :=
  if existsb is_meta (String.list_ascii_of_string pat) then None
  else Some (contains_ci pat).

Definition digit_val (a : ascii) : option nat :=
  let n := nat_of_ascii a in
  if bool_decide (48 ≤ n ∧ n ≤ 57)%nat then Some (n - 48) else None.

Fixpoint digits_val (acc : nat) (l : list ascii) : option nat :=
  match l with
  | [] => Some acc
  | a :: l' => d ← digit_val a; digits_val (10 * acc + d) l'
  end.

Definition days_in_month (y m : nat) : nat :=
  match m with
  | 2 => if bool_decide (y mod 4 = 0 ∧ (y mod 100 ≠ 0 ∨ y mod 400 = 0)) then 29 else 28
  | 4 | 6 | 9 | 11 => 30
  | _ => 31
  end.

(** A timestamp spelled [YYYY-MM-DD HH:MM:SS], checked field by field. *)
Definition iso_timestamp (s : string) : option string :=
  match String.list_ascii_of_string s with
  | [y1; y2; y3; y4; d1; m1; m2; d2; a1; a2; sp; h1; h2; c1; n1; n2; c2; s1; s2] =>
      y ← digits_val 0 [y1; y2; y3; y4];
      m ← digits_val 0 [m1; m2];
      d ← digits_val 0 [a1; a2];
      h ← digits_val 0 [h1; h2];
      n ← digits_val 0 [n1; n2];
      sec ← digits_val 0 [s1; s2];
      if bool_decide (d1 = "-"%char ∧ d2 = "-"%char ∧ sp = " "%char ∧
                      c1 = ":"%char ∧ c2 = ":"%char ∧
                      (1 ≤ y ∧ 1 ≤ m ∧ m ≤ 12 ∧ 1 ≤ d ∧ d ≤ days_in_month y m ∧
                       h < 24 ∧ n < 60 ∧ sec < 60)%nat)
      then Some s else None
  | _ => None
  end.

(** [pd.to_datetime(idx, errors="coerce")] for labels already spelled
    [YYYY-MM-DD HH:MM:SS]; every other label comes out NaT.  The timestamp
    is kept as its spelling, so its [strftime] is the identity. *)
Definition iso_to_datetime (idx : list cell) : list (option string) :=
  (λ c, match c with CStr s => iso_timestamp s | _ => None end) <$> idx.

Definition two_digits (n : nat) : string :=
  (if bool_decide (n < 10)%nat then "0" else "") +:+ pretty (N.of_nat n).

(** A clock that reads 12:00:00, 12:01:00, ... on 1 January 2025, spelled
    as [%d%m%Y%H_%M_%S]. *)
Definition minute_clock (k : nat) : string :=
  "0101202512_" +:+ two_digits k +:+ "_00".

(** The same readings spelled as the API's [queryTime]. *)
Definition minute_query_time (k : nat) : string :=
  "2025-01-01 12:" +:+ two_digits k +:+ ":00".

(** One result row per query. *)
Definition snapshot_of (k : nat) (qs : list string) : DataFrame :=
  mkDF (range_index (length qs))
    (list_to_map
       [("searchTerms", CStr <$> qs);
        ("rank", (λ _, CNum 1) <$> qs);
        ("title", (λ q, CStr ("Best " +:+ q)) <$> qs);
        ("queryTime", (λ _, CStr (minute_query_time k)) <$> qs)]).

(** An API that always answers. *)
Definition steady_api (k : nat) (qs : list string) : option DataFrame :=
  Some (snapshot_of k qs).

(** An API that fails from the third request on. *)
Definition flaky_api (k : nat) (qs : list string) : option DataFrame :=
  if bool_decide (k < 2)%nat then Some (snapshot_of k qs) else None.

(** ** The script *)

Section Session.

(** [TextBlob(s).sentiment.polarity] *)
Context (polarity : string → Q).
(** [str(x)] for a number [x] *)
Context (repr_num : Q → string).
(** [re.compile(pat, flags=re.IGNORECASE)], as the predicate
    [regex.search(s) is not None]; [None] when the pattern does not
    compile ([re.error]). *)
Context (re_compile : string → option (string → bool)).
(** [pd.to_datetime(idx, errors="coerce")], [None] standing for NaT, and
    [strftime("%Y-%m-%d %H:%M:%S")] on one timestamp. *)
Context {Timestamp : Type}.
Context (to_datetime : list cell → list (option Timestamp)).
Context (strftime : Timestamp → string).
(** [adv.serp_goog(q=queries, key=api_key, cx=cse_id)] at the k-th request
    of the session; [None] when the call raises. *)
Context (serp_goog : nat → list string → option DataFrame).
(** [datetime.now().strftime("%d%m%Y%H_%M_%S")] as read for the k-th
    request. *)
Context (now : nat → string).

(** The sidebar inputs. *)
Context (queries : list string).
Context (folder_path : string).
Context (interval : nat).
Context (iterations : nat).

(** *** Snapshot collection (lines 61-77) *)

Definition csv_path (date : string) : string :=
  folder_path +:+ "/serp_" +:+ date +:+ "_scheduled_serp.csv".

Definition read_clock : M string :=
  λ w, (Ok (now (calls w)), w).

Definition fetch : M DataFrame :=
  λ w,
    let w' := mkWorld (S (calls w)) (files w) (trace w ++ [EvFetch queries]) in
    match serp_goog (calls w) queries with
    | Some df => (Ok df, w')
    | None => (Raise ApiError, w')
    end.

Definition to_csv_file (df : DataFrame) (path : string) : M unit :=
  λ w, (Ok tt, mkWorld (calls w) (<[path := df]> (files w)) (trace w ++ [EvWrite path])).

Definition sleep (secs : nat) : M unit := emit (EvSleep secs).

Definition record_serp : M DataFrame :=
  date ← read_clock;
  df ← fetch;
  _ ← to_csv_file df (csv_path date);
  mret df.

(** The body of [for i in range(iterations)], over the values [i] still
    to come. *)
Fixpoint tracking_loop (range : list nat) (collected_dfs : list DataFrame)
    : M (list DataFrame) :=
  match range with
  | [] => mret collected_dfs
  | i :: range' =>
      _ ← emit (EvInfo (i + 1) iterations);
      df ← record_serp;
      let collected_dfs := (collected_dfs ++ [df])%list in
      _ ← (if bool_decide (Z.of_nat i < Z.of_nat iterations - 1)%Z
           then sleep interval else mret tt);
      tracking_loop range' collected_dfs
  end.

(** *** Table merge (lines 80-85 and 96-100) *)

Definition format_times (idx : list cell) : list cell :=
  (λ o : option Timestamp,
     match o with
     | Some t => CStr (strftime t)
     | None => CNaN
     end) <$> to_datetime idx.

Definition merge_tables (dfs : list DataFrame) : result DataFrame :=
  serp_csv ← concat dfs;
  let serp_csv := drop_column "Unnamed: 0" serp_csv in
  serp_csv ← set_index "queryTime" serp_csv;
  assign_index (format_times (index serp_csv)) serp_csv.

(** The branch of [if st.sidebar.button("Start SERP Tracking")]. *)
Definition start_tracking : M DataFrame :=
  collected_dfs ← tracking_loop (seq 0 iterations) [];
  _ ← emit EvSuccess;
  lift_result (merge_tables collected_dfs).

(** *** Derived columns on the session table (lines 127-132) *)

Definition py_str (x : cell) : string :=
  match x with
  | CStr s => s
  | CNum q => repr_num q
  | CBool b => if b then "True" else "False"
  | CNaN => "nan"
  end.

Definition sentiment_of (x : cell) : cell := CNum (polarity (py_str x)).

Definition derive_sentiment (serp_csv : DataFrame) : result DataFrame :=
  title ← getcol "title" serp_csv;
  let serp_csv := setcol "sentiment" (sentiment_of <$> title) serp_csv in
  sentiment ← getcol "sentiment" serp_csv;
  positive ← result_mapM (λ c, cell_add c 1) sentiment;
  Ok (setcol "sentiment_positive" positive serp_csv).

(** *** Result filter (lines 153-166) *)

Definition str_contains (pat : string) (col : list cell) : result (list mval) :=
  match re_compile pat with
  | None => Raise (ReError pat)
  | Some search => Ok (cell_contains search <$> col)
  end.

Definition filter_results (keyword : string) (field : filter_field)
    (serp_csv : DataFrame) : result DataFrame :=
  match field with
  | SearchTerms =>
      terms ← getcol "searchTerms" serp_csv;
      mask ← str_contains keyword terms;
      getitem_mask mask serp_csv
  | Title =>
      title ← getcol "title" serp_csv;
      mask ← str_contains keyword title;
      getitem_mask mask serp_csv
  | Both =>
      terms ← getcol "searchTerms" serp_csv;
      left ← str_contains keyword terms;
      title ← getcol "title" serp_csv;
      right ← str_contains keyword title;
      getitem_mask (zip_with mask_or left right) serp_csv
  end.

(** *** Derived columns on the filtered copy (lines 168-169, 210-211) *)

Definition scale (c : cell) : result cell := cell_add (cell_mul c 20) 10.

Definition derive_sizes (serp_results : DataFrame) : result DataFrame :=
  let serp_results := setcol_scalar "bubble_size" (CNum 35) serp_results in
  positive ← getcol "sentiment_positive" serp_results;
  bubble ← result_mapM scale positive;
  let serp_results := setcol "bubble_size" bubble serp_results in
  title ← getcol "title" serp_results;
  let serp_results := setcol "title_length" (str_len <$> title) serp_results in
  positive ← getcol "sentiment_positive" serp_results;
  size ← result_mapM scale positive;
  Ok (setcol "sentiment_size" size serp_results).

(** The branch of [if serp_csv is not None], charts left out: the session
    table as the run leaves it, and the filtered table with its derived
    columns (or the exception that stopped the run after the session table
    had got its sentiment columns). *)
Definition analysis (keyword : string) (field : filter_field)
    (serp_csv : DataFrame) : result (DataFrame * result DataFrame) :=
  serp_csv ← derive_sentiment serp_csv;
  Ok (serp_csv,
      serp_results ← filter_results keyword field serp_csv;
      derive_sizes serp_results).

(** *** Vocabulary of the statements *)

(** What iteration [i] of a run that starts at request number [c0] leaves
    in the trace. *)
Definition iteration_trace (c0 i : nat) : list event :=
  [EvInfo (i + 1) iterations; EvFetch queries; EvWrite (csv_path (now (c0 + i)))]
  ++ (if bool_decide (i + 1 < iterations)%nat then [EvSleep interval] else []).



(** The mask the filter builds once the keyword has compiled. *)
Definition field_mask (search : string → bool) (field : filter_field)
    (df : DataFrame) : result (list mval) :=
  match field with
  | SearchTerms =>
      getcol "searchTerms" df ≫= λ terms : list cell,
      Ok (cell_contains search <$> terms)
  | Title =>
      getcol "title" df ≫= λ title : list cell,
      Ok (cell_contains search <$> title)
  | Both =>
      getcol "searchTerms" df ≫= λ terms : list cell,
      getcol "title" df ≫= λ title : list cell,
      Ok (zip_with mask_or (cell_contains search <$> terms)
            (cell_contains search <$> title))
  end.

Definition is_text (c : cell) : Prop := ∃ s, c = CStr s.



(** The label the merged table carries for one parsed timestamp. *)
Definition time_label (o : option Timestamp) : cell :=
  match o with
  | Some t => CStr (strftime t)
  | None => CNaN
  end.

End Session.

(** ** Example tables *)

(** Two results of one snapshot. *)
Definition ex_session : DataFrame :=
  mkDF [CStr "2025-01-01 12:00:00"; CStr "2025-01-01 12:00:00"]
    (list_to_map
       [("searchTerms", [CStr "SERP tracking tools"; CStr "SEO rank tracking"]);
        ("rank", [CNum 1; CNum 1]);
        ("title", [CStr "Best SERP trackers"; CStr "Rank tracking guide"])]).





(** ** The exported file and its re-import (lines 110 and 95)

    A CSV file is modelled after tokenising: every header name with the
    fields below it.  The quoting of the file format, which loses nothing,
    and the byte encoding are left out; what [to_csv] writes for a cell and
    what [read_csv] makes of a field are written out. *)

Definition csv_file : Type := list (string * list string).

(** The fields [pd.read_csv] takes for a missing value. *)
Definition na_values : list string :=
  [""; "#N/A"; "#N/A N/A"; "#NA"; "-1.#IND"; "-1.#QNAN"; "-NaN"; "-nan";
   "1.#IND"; "1.#QNAN"; "<NA>"; "N/A"; "NA"; "NULL"; "NaN"; "None"; "n/a";
   "nan"; "null"].

Definition is_na (t : string) : bool := bool_decide (t ∈ na_values).

(** The fields [pd.read_csv] takes for booleans. *)
Definition parse_bool (t : string) : option bool :=
  if bool_decide (t ∈ ["True"; "TRUE"; "true"]) then Some true
  else if bool_decide (t ∈ ["False"; "FALSE"; "false"]) then Some false
  else None.

(** The header [pd.read_csv] gives the k-th column. *)
Definition header_name (k : nat) (name : string) : string :=
  if decide (name = "") then "Unnamed: " +:+ pretty (N.of_nat k) else name.

Section Csv.
(** The text of a number, and the number a field spells. *)
Context (repr_num : Q → string).
Context (parse_number : string → option Q).
Context {Timestamp : Type}.
Context (to_datetime : list cell → list (option Timestamp)).
Context (strftime : Timestamp → string).

(** What [to_csv] writes for one cell; missing values are left empty. *)
Definition csv_field (c : cell) : string :=
  match c with
  | CStr s => s
  | CNum q => repr_num q
  | CBool b => if b then "True" else "False"
  | CNaN => ""
  end.

(** [df.to_csv()]: the index under its name, then the columns. *)
Definition to_csv (index_name : string) (df : DataFrame) : csv_file :=
  (index_name, csv_field <$> index df)
  :: ((λ nc : string * list cell, (nc.1, csv_field <$> nc.2))
        <$> map_to_list (columns df)).

Definition numeric_field (t : string) : bool :=
  is_na t || bool_decide (is_Some (parse_number t)).

Definition boolean_field (t : string) : bool :=
  is_na t || bool_decide (is_Some (parse_bool t)).

(** The cells [pd.read_csv] makes of the fields of one column: numbers when
    every field that is not missing spells a number, else booleans when
    every such field spells one, else texts. *)
Definition infer_column (fields : list string) : list cell :=
  if forallb numeric_field fields then
    (λ t, if is_na t then CNaN
          else match parse_number t with Some q => CNum q | None => CNaN end)
    <$> fields
  else if forallb boolean_field fields then
    (λ t, if is_na t then CNaN
          else match parse_bool t with Some b => CBool b | None => CNaN end)
    <$> fields
  else (λ t, if is_na t then CNaN else CStr t) <$> fields.

(** [pd.read_csv(file)], for a file whose header names are distinct (a
    repeated name would be renamed). *)
Definition read_csv (file : csv_file) : DataFrame :=
  mkDF (range_index (match file with
                     | [] => 0
                     | (_, fields) :: _ => length fields
                     end))
    (list_to_map
       (imap (λ k (nf : string * list string),
                (header_name k nf.1, infer_column nf.2)) file)).

(** The download of line 110: the merged table's index is named
    [queryTime]. *)
Definition export (serp_csv : DataFrame) : csv_file := to_csv "queryTime" serp_csv.

(** The upload path of lines 94-102. *)
Definition upload (uploaded_files : list csv_file) : result DataFrame :=
  merge_tables to_datetime strftime (read_csv <$> uploaded_files).

(** Uploading the one file the session exported. *)
Definition reimport (file : csv_file) : result DataFrame := upload [file].

(** *** Columns that are read back as they were written *)

Definition numeric_cell (c : cell) : Prop :=
  c = CNaN
  ∨ ∃ q, c = CNum q ∧ is_na (repr_num q) = false ∧ parse_number (repr_num q) = Some q.

Definition boolean_cell (c : cell) : Prop := c = CNaN ∨ ∃ b, c = CBool b.

Definition text_cell (c : cell) : Prop := c = CNaN ∨ ∃ s, c = CStr s ∧ is_na s = false.

(** A column of numbers that are printed and read exactly, or of
    booleans, or of texts none of which is taken for a missing value, one
    of which spells no number and one of which spells no boolean. *)
Definition read_back (col : list cell) : Prop :=
  Forall numeric_cell col
  ∨ Forall boolean_cell col
  ∨ (Forall text_cell col
     ∧ Exists (λ c, ∃ s, c = CStr s ∧ is_na s = false ∧ parse_number s = None) col
     ∧ Exists (λ c, ∃ s, c = CStr s ∧ is_na s = false ∧ parse_bool s = None) col).

End Csv.

(** The number a field of digits followed by ".0" spells: the inverse of
    [repr_whole]. *)
Definition parse_whole (t : string) : option Q :=
  match rev (String.list_ascii_of_string t) with
  | "0"%char :: "."%char :: d :: ds =>
      n ← digits_val 0 (rev (d :: ds)); Some (inject_Z (Z.of_nat n))
  | _ => None
  end.

(** A merged table with a result whose title reads "N/A". *)
Definition ex_na_title : DataFrame :=
  mkDF [CStr "2025-01-01 12:00:00"]
    (list_to_map
       [("searchTerms", [CStr "tracking tools"]);
        ("rank", [CNum 1]);
        ("title", [CStr "N/A"])]).

(** ** The rest of the script

    The sidebar inputs (lines 19-50), the word-cloud text (line 237) and the
    script as one run over the session state (lines 56-58, 68-104).  Texts
    are ASCII here: the whitespace [str.strip] removes is the ASCII one. *)







(** [sep.join(items)] on texts. *)
Fixpoint join_with (sep : string) (items : list string) : string :=
  match items with
  | [] => ""
  | [q] => q
  | q :: items' => q +:+ sep +:+ join_with sep items'
  end.






(** Python's truth value of [st.secrets.get(name)]: neither absent nor
    empty. *)
Definition truthy (o : option string) : bool :=
  match o with
  | Some s => negb (bool_decide (s = ""))
  | None => false
  end.

(** [a or b] on an input text and a secret that is there. *)
Definition py_or (a b : string) : string := if bool_decide (a = "") then b else a.

(** How lines 36-44 end: the run goes on with a credential pair (and says
    whether it told the operator that defaults are in use), or [st.stop()]. *)
Inductive credentials : Type :=
  | Proceed (api_key cse_id : string) (info_shown : bool)
  | Stop.

(** Lines 19-22 and 36-44, on the two text inputs and the secrets that are
    configured (a secrets file is there; without one [st.secrets] itself
    raises). *)
Definition resolve_credentials (api_key cse_id : string)
    (secrets : gmap string string) : credentials :=
  if bool_decide (api_key = "" ∨ cse_id = "") then
    let api_key_default := secrets !! "API_KEY" in
    let cse_id_default := secrets !! "CSE_ID" in
    if truthy api_key_default && truthy cse_id_default then
      Proceed (py_or api_key (default "" api_key_default))
              (py_or cse_id (default "" cse_id_default)) true
    else Stop
  else Proceed api_key cse_id false.

(** [Series.dropna()] *)
Definition dropna (col : list cell) : list cell :=
  List.filter (λ c, match c with CNaN => false | _ => true end) col.

(** [sep.join(items)] on the cells of a column: an item that is no text
    raises. *)
Fixpoint py_join (sep : string) (items : list cell) : result string :=
  match items with
  | [] => Ok ""
  | CStr s :: items' =>
      match items' with
      | [] => Ok s
      | _ :: _ => rest ← py_join sep items'; Ok (s +:+ sep +:+ rest)
      end
  | _ :: _ => Raise (TypeError "sequence item: expected str instance")
  end.

(** The texts of a column, top to bottom. *)
Definition texts_of (col : list cell) : list string :=
  omap (λ c, match c with CStr s => Some s | _ => None end) col.

(** Line 237: [" ".join(serp_results["title"].dropna())]. *)
Definition wordcloud_text (serp_results : DataFrame) : result string :=
  title ← getcol "title" serp_results;
  py_join " " (dropna title).

Section Script.
Context (polarity : string → Q).
Context (repr_num : Q → string).
Context (parse_number : string → option Q).
Context (re_compile : string → option (string → bool)).
Context {Timestamp : Type}.
Context (to_datetime : list cell → list (option Timestamp)).
Context (strftime : Timestamp → string).
Context (serp_goog : nat → list string → option DataFrame).
Context (now : nat → string).
Context (queries : list string).
Context (folder_path : string).
Context (interval iterations : nat).

(** Lines 104-248: what the run shows for the table the session holds by
    then, and the table as the run leaves it there.  The columns lines
    127-132 add to the session table are added in place; an exception ends
    the run. *)
Definition display (keyword : string) (field : filter_field)
    (state : option DataFrame) (w : world)
    : result (option DataFrame) * option DataFrame * world :=
  match state with
  | None => (Ok None, None, w)
  | Some serp_csv =>
      match analysis polarity repr_num re_compile keyword field serp_csv with
      | Raise e => (Raise e, Some serp_csv, w)
      | Ok (serp_csv, Raise e) => (Raise e, Some serp_csv, w)
      | Ok (serp_csv, Ok serp_results) =>
          match wordcloud_text serp_results with
          | Raise e => (Raise e, Some serp_csv, w)
          | Ok _ => (Ok (Some serp_results), Some serp_csv, w)
          end
      end
  end.

(** One run of the script from line 56 on.  [state] is
    [st.session_state["serp_csv"]] as the run finds it; the run returns what
    it leaves there.  An exception ends the run; what was stored before it
    stays stored. *)
Definition script_run (button : bool) (uploaded_files : list csv_file)
    (keyword : string) (field : filter_field)
    (state : option DataFrame) (w : world)
    : result (option DataFrame) * option DataFrame * world :=
  let tracked :=
    if button then
      match start_tracking to_datetime strftime serp_goog now queries folder_path
              interval iterations w with
      | (Ok serp_csv, w') => (Ok tt, Some serp_csv, w')
      | (Raise e, w') => (Raise e, state, w')
      end
    else (Ok tt, state, w) in
  match tracked with
  | (Raise e, state, w) => (Raise e, state, w)
  | (Ok _, state, w) =>
      let uploaded :=
        match uploaded_files with
        | [] => (Ok tt, state)
        | _ :: _ =>
            match upload parse_number to_datetime strftime uploaded_files with
            | Ok serp_csv => (Ok tt, Some serp_csv)
            | Raise e => (Raise e, state)
            end
        end in
      match uploaded with
      | (Raise e, state) => (Raise e, state, w)
      | (Ok _, state) => display keyword field state w
      end
  end.

End Script.


(** ** More example inputs *)

(** An API whose snapshots come without the query timestamp. *)
Definition bare_api (k : nat) (qs : list string) : option DataFrame :=
  Some (drop_column "queryTime" (snapshot_of k qs)).


Definition ex_file_with_time : csv_file :=
  [("", ["0"]); ("searchTerms", ["tracking"]); ("title", ["Trackers"]);
   ("queryTime", ["2025-01-01 12:00:00"])].

(** * Properties *)

(** ** Lists, masks and the error monad *)

Lemma result_mapM_total {A B : Type} (f : A → result B) (g : A → B) (l : list A) :
  Forall (λ a, f a = Ok (g a)) l → result_mapM f l = Ok (g <$> l).
Proof.
  induction 1 as [|a l Ha _ IH]; simpl; [done|].
  by rewrite Ha, IH.
Qed.

Lemma result_mapM_length {A B : Type} (f : A → result B) (l : list A) (k : list B) :
  result_mapM f l = Ok k → length k = length l.
Proof.
  revert k. induction l as [|a l IH]; intros k; simpl.
  - by intros [= <-].
  - destruct (f a) as [b|e]; simpl; [|done].
    destruct (result_mapM f l) as [bs|e]; simpl; [|done].
    intros [= <-]. simpl. f_equal. by apply IH.
Qed.

Lemma result_mapM_lookup {A B : Type} (f : A → result B) (l : list A) (k : list B) i a :
  result_mapM f l = Ok k → l !! i = Some a → ∃ b, k !! i = Some b ∧ f a = Ok b.
Proof.
  revert k i. induction l as [|x l IH]; intros k i; simpl; [done|].
  destruct (f x) as [b|e] eqn:Hx; simpl; [|done].
  destruct (result_mapM f l) as [bs|e]; simpl; [|done].
  intros [= <-]. destruct i as [|i]; simpl.
  - intros [= ->]. eauto.
  - intros Hi. by apply IH.
Qed.

Lemma mask_bools_inv (mask : list mval) (bs : list bool) :
  result_mapM mask_bool mask = Ok bs → mask = MBool <$> bs.
Proof.
  revert bs. induction mask as [|v mask IH]; intros bs; simpl.
  - by intros [= <-].
  - destruct v as [b|]; simpl; [|done].
    destruct (result_mapM mask_bool mask) as [bs'|e]; simpl; [|done].
    intros [= <-]. simpl. f_equal. by apply IH.
Qed.

Lemma mask_bools_fmap (bs : list bool) :
  result_mapM mask_bool (MBool <$> bs) = Ok bs.
Proof.
  induction bs as [|b bs IH]; csimpl; [done|]. by rewrite IH.
Qed.




Lemma select_length {A : Type} (mask : list bool) (l : list A) :
  length l = length mask → length (select mask l) = length (List.filter id mask).
Proof.
  revert l. induction mask as [|b mask IH]; intros [|x l]; simpl; try done.
  intros [= Hl]. destruct b; simpl; by rewrite IH.
Qed.




(** ** Tables and their rows *)


Lemma rows_from_select (bs : list bool) (idx : list cell)
    (cols : gmap string (list cell)) :
  length bs = length idx →
  (∀ name col, cols !! name = Some col → length col = length idx) →
  rows_from (select bs idx) (select bs <$> cols) = select bs (rows_from idx cols).
Proof.
  revert idx cols.
  induction bs as [|b bs IH]; intros [|i idx] cols Hlen Hcols; try done.
  injection Hlen as Hlen.
  assert (∀ name col, (tail <$> cols) !! name = Some col → length col = length idx)
    as Htail.
  { intros name col. rewrite lookup_fmap.
    destruct (cols !! name) as [col0|] eqn:Hcol; [|done].
    intros [= <-]. apply Hcols in Hcol. destruct col0; simpl in *; lia. }
  destruct b; simpl.
  - f_equal.
    + f_equal. apply map_eq. intros name.
      rewrite !lookup_omap, lookup_fmap.
      destruct (cols !! name) as [col0|] eqn:Hcol; [|done].
      apply Hcols in Hcol. by destruct col0.
    + rewrite <- IH by done. f_equal.
      rewrite <- !map_fmap_compose. apply map_fmap_ext.
      intros name col0 Hcol. apply Hcols in Hcol. by destruct col0.
  - rewrite <- IH by done. f_equal.
    rewrite <- map_fmap_compose. apply map_fmap_ext.
    intros name col0 Hcol. destruct col0; [|done]. by destruct bs.
Qed.

Lemma wf_setcol name col df :
  wf df → length col = nrows df → wf (setcol name col df).
Proof.
  intros Hwf Hlen name' col'. unfold setcol, nrows. simpl.
  rewrite lookup_insert. case_decide.
  - by intros [= <-].
  - apply Hwf.
Qed.

Lemma wf_getitem_mask mask df r :
  wf df → getitem_mask mask df = Ok r → wf r.
Proof.
  unfold getitem_mask. intros Hwf.
  destruct (result_mapM mask_bool mask) as [bs|e] eqn:Hbs; simpl; [|done].
  intros [= <-] name col. unfold nrows. simpl. rewrite lookup_fmap.
  destruct (columns df !! name) as [col0|] eqn:Hcol; [|done].
  intros [= <-]. apply Hwf in Hcol. unfold nrows in Hcol.
  revert Hcol. generalize (index df). clear.
  revert col0. induction bs as [|b bs IH]; intros [|c col0] [|i idx]; simpl; try done.
  intros [= Hlen]. destruct b; simpl; by rewrite (IH _ idx).
Qed.

(** ** The table merge *)

Lemma concat_column_length (dfs : list DataFrame) name :
  Forall wf dfs → length (dfs ≫= column_or_nan name) = sum_list (nrows <$> dfs).
Proof.
  induction 1 as [|df dfs Hwf _ IH]; csimpl; [done|].
  rewrite length_app, IH. f_equal.
  unfold column_or_nan. destruct (columns df !! name) as [col|] eqn:Hcol; simpl.
  - by apply Hwf in Hcol.
  - by rewrite length_replicate.
Qed.

Lemma concat_lookup (dfs : list DataFrame) t name :
  concat dfs = Ok t →
  columns t !! name =
    if decide (name ∈ column_names dfs) then Some (dfs ≫= column_or_nan name) else None.
Proof.
  destruct dfs as [|df dfs]; [done|]. intros [= <-]. simpl.
  set (names := column_names (df :: dfs)).
  set (f := λ n : string, (n, (df :: dfs) ≫= column_or_nan n)).
  assert (∀ y y', y ∈ names → y' ∈ names → (f y).1 = (f y').1 → y = y') as Hinj
    by (intros ???? H; exact H).
  case_decide as Hin.
  - apply (lookup_set_to_map f names name _ Hinj). by exists name.
  - apply eq_None_not_Some. intros [col Hcol].
    apply (lookup_set_to_map f names name _ Hinj) in Hcol as (y & Hy & [= -> _]).
    done.
Qed.

Lemma concat_index (dfs : list DataFrame) t :
  concat dfs = Ok t → index t = range_index (sum_list (nrows <$> dfs)).
Proof. destruct dfs; [done|]. by intros [= <-]. Qed.

Lemma concat_ok (dfs : list DataFrame) : dfs ≠ [] → ∃ t, concat dfs = Ok t.
Proof. destruct dfs; [done|]. eauto. Qed.

Lemma length_range_index n : length (range_index n) = n.
Proof. unfold range_index. by rewrite length_fmap, length_seq. Qed.

Section Merge.
Context {Timestamp : Type}.
Context (to_datetime : list cell → list (option Timestamp)).
Context (strftime : Timestamp → string).

(** [pd.to_datetime] returns one timestamp (or NaT) per label. *)
Hypothesis to_datetime_length : ∀ idx, length (to_datetime idx) = length idx.

(** What the merge returns on snapshot tables. *)
Lemma merge_tables_ok (dfs : list DataFrame) :
  dfs ≠ [] → Forall wf dfs → "queryTime" ∈ column_names dfs →
  ∃ serp_csv,
    merge_tables to_datetime strftime dfs = Ok serp_csv
    ∧ index serp_csv
      = time_label strftime <$> to_datetime (dfs ≫= column_or_nan "queryTime")
    ∧ ∀ name,
        columns serp_csv !! name =
          if decide (name = "Unnamed: 0" ∨ name = "queryTime") then None
          else if decide (name ∈ column_names dfs)
               then Some (dfs ≫= column_or_nan name) else None.
Proof.
  intros Hne Hwf Hqt. destruct (concat_ok dfs Hne) as [t Ht].
  pose proof (concat_lookup dfs t) as Hcols.
  pose proof (concat_index dfs t Ht) as Hidx.
  unfold merge_tables. rewrite Ht. simpl.
  unfold set_index, getcol, drop_column. simpl.
  rewrite lookup_delete_ne by done.
  rewrite (Hcols "queryTime" Ht), decide_True by done. simpl.
  unfold assign_index, nrows, format_times. simpl.
  rewrite decide_True.
  2:{ by rewrite length_fmap, to_datetime_length. }
  eexists. split; [done|]. split; [done|]. simpl. intros name.
  rewrite !lookup_delete, (Hcols name Ht).
  destruct (decide ("queryTime" = name)) as [<-|?].
  { by rewrite decide_True by (by right). }
  destruct (decide ("Unnamed: 0" = name)) as [<-|?].
  { by rewrite decide_True by (by left). }
  rewrite (decide_False (P := name = "Unnamed: 0" ∨ name = "queryTime")); [done|].
  intros [?|?]; congruence.
Qed.

(** Tables none of which carries [queryTime] are turned down by
    [set_index]. *)
Lemma merge_tables_without_query_time (dfs : list DataFrame) :
  dfs ≠ [] → "queryTime" ∉ column_names dfs →
  merge_tables to_datetime strftime dfs = Raise (KeyError "queryTime").
Proof.
  intros Hne Hqt. destruct (concat_ok dfs Hne) as [t Ht].
  unfold merge_tables. rewrite Ht. simpl.
  unfold set_index, getcol, drop_column. simpl.
  rewrite lookup_delete_ne by done.
  by rewrite (concat_lookup dfs t _ Ht), decide_False.
Qed.



End Merge.

(** ** The result filter *)

Lemma wf_selected bs df : wf df → wf (selected bs df).
Proof.
  intros Hwf. apply (wf_getitem_mask (MBool <$> bs) df); [done|].
  unfold getitem_mask. by rewrite mask_bools_fmap.
Qed.


Lemma getcol_length name df col : wf df → getcol name df = Ok col → length col = nrows df.
Proof.
  unfold getcol. intros Hwf. destruct (columns df !! name) as [c|] eqn:Hc; [|done].
  intros [= <-]. by apply Hwf in Hc.
Qed.



Lemma rows_of_selected bs df :
  wf df → length bs = nrows df → rows_of (selected bs df) = select bs (rows_of df).
Proof.
  intros Hwf Hlen. unfold rows_of, selected. simpl.
  apply rows_from_select; [done|]. intros name col Hcol. by apply Hwf in Hcol.
Qed.

Lemma field_mask_length search field df mask :
  wf df → field_mask search field df = Ok mask → length mask = nrows df.
Proof.
  intros Hwf. unfold field_mask. destruct field.
  - destruct (getcol "searchTerms" df) as [c|] eqn:Hc; simpl; [|done].
    intros [= <-]. rewrite length_fmap. by eapply getcol_length.
  - destruct (getcol "title" df) as [c|] eqn:Hc; simpl; [|done].
    intros [= <-]. rewrite length_fmap. by eapply getcol_length.
  - destruct (getcol "searchTerms" df) as [c1|] eqn:Hc1; simpl; [|done].
    destruct (getcol "title" df) as [c2|] eqn:Hc2; simpl; [|done].
    intros [= <-]. rewrite length_zip_with, !length_fmap.
    apply (getcol_length _ _ _ Hwf) in Hc1, Hc2. lia.
Qed.


Section Filter.
Context (re_compile : string → option (string → bool)).

(** With a keyword that compiles, the filter is the selection by
    [field_mask]; with one that does not, it raises. *)
Lemma filter_results_compiled keyword field df search :
  re_compile keyword = Some search →
  filter_results re_compile keyword field df
  = field_mask search field df ≫= λ mask, getitem_mask mask df.
Proof.
  intros Hre. unfold filter_results, field_mask, str_contains. rewrite Hre.
  destruct field.
  - by destruct (getcol "searchTerms" df).
  - by destruct (getcol "title" df).
  - destruct (getcol "searchTerms" df); [|done]. simpl.
    by destruct (getcol "title" df).
Qed.

Lemma filter_results_not_compiled keyword field df :
  re_compile keyword = None → ∃ e, filter_results re_compile keyword field df = Raise e.
Proof.
  intros Hre. unfold filter_results, str_contains. rewrite Hre.
  destruct field.
  - destruct (getcol "searchTerms" df); simpl; eauto.
  - destruct (getcol "title" df); simpl; eauto.
  - destruct (getcol "searchTerms" df); simpl; eauto.
Qed.

(** What a filter that returns has returned. *)
Lemma filter_results_inv keyword field df r :
  filter_results re_compile keyword field df = Ok r →
  ∃ search bs,
    re_compile keyword = Some search
    ∧ field_mask search field df = Ok (MBool <$> bs)
    ∧ r = selected bs df.
Proof.
  intros Hr. destruct (re_compile keyword) as [search|] eqn:Hre.
  2:{ destruct (filter_results_not_compiled keyword field df Hre) as [e He].
      congruence. }
  rewrite (filter_results_compiled _ _ _ _ Hre) in Hr.
  destruct (field_mask search field df) as [mask|] eqn:Hmask; simpl in Hr; [|done].
  unfold getitem_mask in Hr.
  destruct (result_mapM mask_bool mask) as [bs|] eqn:Hbs; simpl in Hr; [|done].
  injection Hr as <-. apply mask_bools_inv in Hbs as ->. by exists search, bs.
Qed.







End Filter.

(** ** The derived columns *)

Lemma scale_number (c : cell) : is_number c → cell_add (cell_mul c 20) 10 = Ok (scaled c).
Proof. by intros [q ->]. Qed.

Lemma scaled_column (col : list cell) :
  Forall is_number col → result_mapM (λ c, cell_add (cell_mul c 20) 10) col = Ok (scaled <$> col).
Proof.
  intros Hcol. apply result_mapM_total.
  eapply Forall_impl; [done|]. apply scale_number.
Qed.

Lemma select_Forall {A : Type} (P : A → Prop) (bs : list bool) (l : list A) :
  Forall P l → Forall P (select bs l).
Proof.
  intros Hl. revert bs. induction Hl as [|x l Hx _ IH]; intros [|b bs]; simpl; try done.
  destruct b; [constructor|]; auto.
Qed.

Section Metrics.
Context (polarity : string → Q).
Context (repr_num : Q → string).
Context (re_compile : string → option (string → bool)).

(** The sentiment columns the session table gets. *)
Lemma derive_sentiment_ok df title :
  columns df !! "title" = Some title →
  derive_sentiment polarity repr_num df
  = Ok (setcol "sentiment_positive"
          ((λ x, CNum (polarity (py_str repr_num x) + 1)) <$> title)
          (setcol "sentiment" (sentiment_of polarity repr_num <$> title) df)).
Proof.
  intros Htitle. unfold derive_sentiment, getcol. rewrite Htitle. simpl.
  rewrite lookup_insert_eq. simpl.
  rewrite (result_mapM_total _ (λ c, match c with
                                     | CNum q => CNum (q + 1)
                                     | _ => CNaN
                                     end)).
  - simpl. by rewrite <- list_fmap_compose.
  - apply Forall_fmap. by apply Forall_true.
Qed.

(** The columns the filtered copy gets, when its [sentiment_positive]
    column holds numbers and it has a [title] column. *)
Lemma derive_sizes_ok res positive title :
  columns res !! "sentiment_positive" = Some positive →
  Forall is_number positive →
  columns res !! "title" = Some title →
  derive_sizes res
  = Ok (setcol "sentiment_size" (scaled <$> positive)
          (setcol "title_length" (str_len <$> title)
             (setcol "bubble_size" (scaled <$> positive)
                (setcol_scalar "bubble_size" (CNum 35) res)))).
Proof.
  intros Hpos Hnum Htitle. unfold derive_sizes, getcol, scale. simpl.
  rewrite lookup_insert_ne, Hpos by done. simpl.
  rewrite scaled_column by done. simpl.
  rewrite !lookup_insert_ne, Htitle by done. simpl.
  rewrite !lookup_insert_ne, Hpos by done. simpl.
  by rewrite scaled_column.
Qed.

(** The filtered copy of a session table that has its sentiment columns
    gets its size columns: [derive_sizes] does not raise on it. *)
Lemma derive_sizes_filtered keyword field df title serp_csv serp_results :
  wf df →
  columns df !! "title" = Some title →
  derive_sentiment polarity repr_num df = Ok serp_csv →
  filter_results re_compile keyword field serp_csv = Ok serp_results →
  ∃ bs,
    length bs = nrows df
    ∧ serp_results = selected bs serp_csv
    ∧ derive_sizes serp_results
      = Ok (setcol "sentiment_size"
              (scaled <$> select bs ((λ x, CNum (polarity (py_str repr_num x) + 1)) <$> title))
              (setcol "title_length" (str_len <$> select bs title)
                 (setcol "bubble_size"
                    (scaled <$> select bs ((λ x, CNum (polarity (py_str repr_num x) + 1)) <$> title))
                    (setcol_scalar "bubble_size" (CNum 35) serp_results)))).
Proof.
  intros Hwf Htitle Hsent Hfilter.
  rewrite (derive_sentiment_ok df title Htitle) in Hsent. injection Hsent as <-.
  assert (length title = nrows df) as Hlen by by apply Hwf in Htitle.
  set (serp_csv := setcol "sentiment_positive" _ _) in *.
  assert (wf serp_csv) as Hwf'.
  { apply wf_setcol; [apply wf_setcol; [done|]|]; by rewrite length_fmap. }
  destruct (filter_results_inv _ _ _ _ _ Hfilter) as (search & bs & _ & Hmask & ->).
  exists bs. split; [|split; [done|]].
  { apply (field_mask_length _ _ _ _ Hwf') in Hmask.
    by rewrite length_fmap in Hmask. }
  apply derive_sizes_ok.
  - unfold selected, serp_csv, setcol. simpl.
    by rewrite lookup_fmap, lookup_insert_eq.
  - apply select_Forall, Forall_fmap, Forall_true. intros x. by eexists.
  - unfold selected, serp_csv, setcol. simpl.
    by rewrite lookup_fmap, !lookup_insert_ne, Htitle.
Qed.



(** [TextBlob]'s polarity lies between -1 and 1. *)
Hypothesis polarity_range : ∀ s, (-1 <= polarity s)%Q ∧ (polarity s <= 1)%Q.


End Metrics.

(** ** The tracking loop *)

Lemma string_length_app (s t : string) :
  String.length (s +:+ t) = (String.length s + String.length t)%nat.
Proof. induction s as [|a s IH]; simpl; [done|]. by rewrite IH. Qed.

Lemma string_app_inj_r (s1 s2 t : string) : s1 +:+ t = s2 +:+ t → s1 = s2.
Proof.
  revert s2. induction s1 as [|a s1 IH]; intros [|b s2] H.
  - done.
  - apply (f_equal String.length) in H.
    rewrite !string_length_app in H. simpl in H. lia.
  - apply (f_equal String.length) in H.
    rewrite !string_length_app in H. simpl in H. lia.
  - injection H as -> H. f_equal. by apply IH.
Qed.

Lemma csv_path_inj folder_path d1 d2 :
  csv_path folder_path d1 = csv_path folder_path d2 → d1 = d2.
Proof.
  unfold csv_path. intros H.
  apply (inj (String.app folder_path)) in H.
  apply (inj (String.app "/serp_")) in H.
  by apply string_app_inj_r in H.
Qed.

Lemma count_events_app p (t1 t2 : list event) :
  count_events p (t1 ++ t2) = (count_events p t1 + count_events p t2)%nat.
Proof. unfold count_events. by rewrite List.filter_app, length_app. Qed.

Section Tracking.
Context (serp_goog : nat → list string → option DataFrame).
Context (now : nat → string).
Context (queries : list string).
Context (folder_path : string).
Context (interval iterations : nat).

(** One snapshot: the clock is read, the API is called, the file named
    after the clock reading is written. *)
Lemma record_serp_ok w df :
  serp_goog (calls w) queries = Some df →
  record_serp serp_goog now queries folder_path w
  = (Ok df,
     mkWorld (S (calls w))
       (<[csv_path folder_path (now (calls w)) := df]> (files w))
       (trace w ++ [EvFetch queries; EvWrite (csv_path folder_path (now (calls w)))])).
Proof.
  intros Hdf. unfold record_serp, mbind, M_bind, read_clock, fetch, to_csv_file, mret, M_ret.
  rewrite Hdf. simpl. by rewrite <- app_assoc.
Qed.

(** A failing API call stops the snapshot before anything is written. *)
Lemma record_serp_raises w :
  serp_goog (calls w) queries = None →
  record_serp serp_goog now queries folder_path w
  = (Raise ApiError,
     mkWorld (S (calls w)) (files w) (trace w ++ [EvFetch queries])).
Proof.
  intros Hdf. unfold record_serp, mbind, M_bind, read_clock, fetch.
  by rewrite Hdf.
Qed.

(** The loop over the iterations [a .. a + n - 1], all of whose API calls
    answer. *)
Lemma tracking_loop_run (snap : nat → DataFrame) c0 n a acc w :
  (a + n = iterations)%nat →
  calls w = (c0 + a)%nat →
  (∀ k, (a ≤ k < iterations)%nat → serp_goog (c0 + k)%nat queries = Some (snap k)) →
  tracking_loop serp_goog now queries folder_path interval iterations (seq a n) acc w
  = (Ok (acc ++ (snap <$> seq a n))%list,
     mkWorld (c0 + a + n)%nat
       (foldl (λ fs k, <[csv_path folder_path (now (c0 + k)%nat) := snap k]> fs)
          (files w) (seq a n))
       (trace w ++ (seq a n ≫= iteration_trace now queries folder_path interval iterations c0))).
Proof.
  revert a acc w. induction n as [|n IH]; intros a acc w Han Hcalls Hapi.
  - simpl. unfold mret, M_ret. destruct w as [c f t]. simpl in *.
    by rewrite !app_nil_r, Nat.add_0_r, Hcalls.
  - cbn [seq tracking_loop]. unfold mbind at 1, M_bind at 1, emit at 1. simpl.
    unfold mbind at 1, M_bind at 1.
    rewrite (record_serp_ok _ (snap a)) by (simpl; rewrite Hcalls; apply Hapi; lia).
    simpl. unfold mbind at 1, M_bind at 1.
    rewrite (bool_decide_ext _ (a + 1 < iterations)%nat) by lia.
    destruct (bool_decide (a + 1 < iterations)%nat) eqn:Hsleep.
    + unfold sleep, emit. simpl. rewrite IH; [|lia|simpl; lia|intros; apply Hapi; lia].
      simpl. rewrite Hcalls. f_equal.
      * by rewrite <- app_assoc.
      * f_equal; [lia|]. by rewrite <- !app_assoc.
    + unfold mret, M_ret. rewrite IH; [|lia|simpl; lia|intros; apply Hapi; lia].
      simpl. rewrite Hcalls. f_equal.
      * by rewrite <- app_assoc.
      * f_equal; [lia|]. by rewrite <- !app_assoc.
Qed.

Lemma count_fetch_iterations c0 (l : list nat) :
  count_events is_fetch
    (l ≫= iteration_trace now queries folder_path interval iterations c0)
  = length l.
Proof.
  induction l as [|i l IH]; [done|].
  rewrite bind_cons, count_events_app, IH. unfold iteration_trace.
  by destruct (bool_decide (i + 1 < iterations)%nat).
Qed.

Lemma count_write_iterations c0 (l : list nat) :
  count_events is_write
    (l ≫= iteration_trace now queries folder_path interval iterations c0)
  = length l.
Proof.
  induction l as [|i l IH]; [done|].
  rewrite bind_cons, count_events_app, IH. unfold iteration_trace.
  by destruct (bool_decide (i + 1 < iterations)%nat).
Qed.

(** The iterations [a .. iterations - 1] sleep once each but the last. *)
Lemma count_sleep_iterations c0 n a :
  (a + n = iterations)%nat →
  count_events is_sleep
    (seq a n ≫= iteration_trace now queries folder_path interval iterations c0)
  = pred n.
Proof.
  revert a. induction n as [|n IH]; intros a Han; [done|].
  cbn [seq]. rewrite bind_cons, count_events_app, IH by lia.
  unfold iteration_trace. case_bool_decide; unfold count_events; simpl; lia.
Qed.

Lemma written_files_lookup (snap : nat → DataFrame) c0
    (fs : gmap string DataFrame) n k :
  (∀ i j, (i < n)%nat → (j < n)%nat → now (c0 + i)%nat = now (c0 + j)%nat → i = j) →
  (k < n)%nat →
  foldl (λ fs k, <[csv_path folder_path (now (c0 + k)%nat) := snap k]> fs) fs (seq 0 n)
    !! csv_path folder_path (now (c0 + k)%nat)
  = Some (snap k).
Proof.
  induction n as [|n IH]; intros Hinj Hk; [lia|].
  rewrite seq_S, foldl_snoc. simpl.
  destruct (decide (k = n)) as [->|Hne].
  - by rewrite lookup_insert_eq.
  - rewrite lookup_insert_ne.
    + apply IH; [|lia]. intros i j ??. apply Hinj; lia.
    + intros Heq%csv_path_inj. apply Hinj in Heq; lia.
Qed.

Lemma written_files_other (snap : nat → DataFrame) c0
    (fs : gmap string DataFrame) n path :
  (∀ k, (k < n)%nat → path ≠ csv_path folder_path (now (c0 + k)%nat)) →
  foldl (λ fs k, <[csv_path folder_path (now (c0 + k)%nat) := snap k]> fs) fs (seq 0 n)
    !! path
  = fs !! path.
Proof.
  induction n as [|n IH]; intros Hpath; [done|].
  rewrite seq_S, foldl_snoc. simpl. rewrite lookup_insert_ne.
  - apply IH. intros k ?. apply Hpath. lia.
  - intros Heq. by apply (Hpath n); [lia|].
Qed.

Lemma written_files_exist (snap : nat → DataFrame) c0
    (fs : gmap string DataFrame) n k :
  (k < n)%nat →
  is_Some (foldl (λ fs k, <[csv_path folder_path (now (c0 + k)%nat) := snap k]> fs)
             fs (seq 0 n)
           !! csv_path folder_path (now (c0 + k)%nat)).
Proof.
  induction n as [|n IH]; intros Hk; [lia|].
  rewrite seq_S, foldl_snoc. simpl.
  destruct (decide (csv_path folder_path (now (c0 + n)%nat)
                    = csv_path folder_path (now (c0 + k)%nat))) as [->|Hne].
  - rewrite lookup_insert_eq. by eexists.
  - rewrite lookup_insert_ne by done. apply IH.
    destruct (decide (k = n)) as [->|]; [done|lia].
Qed.

(** C4. When every API call of the run answers, the collector calls the
    API exactly [iterations] times, writes a CSV file exactly [iterations]
    times, each named after the clock reading of its iteration, touches no
    other file, and returns the snapshots, one table per iteration.  When
    the clock readings differ, so do the names, and every file holds the
    snapshot of its iteration. *)
Theorem collector_fetches_and_writes (snap : nat → DataFrame) w :
  (1 ≤ iterations)%nat →
  (∀ k, (k < iterations)%nat →
     serp_goog (calls w + k)%nat queries = Some (snap k)) →
  ∃ w' t,
    tracking_loop serp_goog now queries folder_path interval iterations
      (seq 0 iterations) [] w
    = (Ok (snap <$> seq 0 iterations), w')
    ∧ length (snap <$> seq 0 iterations) = iterations
    ∧ trace w' = (trace w ++ t)%list
    ∧ count_events is_fetch t = iterations
    ∧ count_events is_write t = iterations
    ∧ calls w' = (calls w + iterations)%nat
    ∧ (∀ k, (k < iterations)%nat →
         is_Some (files w' !! csv_path folder_path (now (calls w + k)%nat)))
    ∧ (∀ path,
         (∀ k, (k < iterations)%nat →
            path ≠ csv_path folder_path (now (calls w + k)%nat)) →
         files w' !! path = files w !! path)
    ∧ ((∀ i j, (i < iterations)%nat → (j < iterations)%nat →
          now (calls w + i)%nat = now (calls w + j)%nat → i = j) →
       NoDup ((λ k, csv_path folder_path (now (calls w + k)%nat)) <$> seq 0 iterations)
       ∧ ∀ k, (k < iterations)%nat →
           files w' !! csv_path folder_path (now (calls w + k)%nat) = Some (snap k)).
Proof.
  intros _ Hapi. eexists _, _. split.
  { apply (tracking_loop_run snap (calls w)); [done|lia|].
    intros k ?. apply Hapi. lia. }
  simpl. split; [by rewrite length_fmap, length_seq|].
  split; [done|]. split; [by rewrite count_fetch_iterations, length_seq|].
  split; [by rewrite count_write_iterations, length_seq|].
  split; [lia|]. split; [|split].
  - intros k Hk. by apply written_files_exist.
  - intros path Hpath. by apply written_files_other.
  - intros Hclock. split.
    + apply NoDup_fmap_2_strong; [|apply NoDup_seq].
      intros i j Hi%elem_of_seq Hj%elem_of_seq Heq%csv_path_inj.
      apply Hclock; [lia..|done].
    + intros k Hk. by apply written_files_lookup.
Qed.

(** C10. When every API call of the run answers, the collector sleeps for
    the configured interval exactly [iterations - 1] times: each iteration
    but the last ends with the sleep, the last one ends with its file
    write, so a single iteration sleeps not at all. *)
Theorem collector_sleeps (snap : nat → DataFrame) w :
  (1 ≤ iterations)%nat →
  (∀ k, (k < iterations)%nat →
     serp_goog (calls w + k)%nat queries = Some (snap k)) →
  ∃ w' t,
    tracking_loop serp_goog now queries folder_path interval iterations
      (seq 0 iterations) [] w
    = (Ok (snap <$> seq 0 iterations), w')
    ∧ trace w' = (trace w ++ t)%list
    ∧ t = seq 0 iterations
          ≫= iteration_trace now queries folder_path interval iterations (calls w)
    ∧ count_events is_sleep t = (iterations - 1)%nat
    ∧ (∀ e, e ∈ t → is_sleep e = true → e = EvSleep interval)
    ∧ (∀ i, (i + 1 < iterations)%nat →
         last (iteration_trace now queries folder_path interval iterations (calls w) i)
         = Some (EvSleep interval))
    ∧ count_events is_sleep
        (iteration_trace now queries folder_path interval iterations (calls w)
           (iterations - 1)) = 0%nat
    ∧ last t = Some (EvWrite (csv_path folder_path
                                (now (calls w + (iterations - 1))%nat))).
Proof.
  intros Hpos Hapi. eexists _, _. split.
  { apply (tracking_loop_run snap (calls w)); [done|lia|].
    intros k ?. apply Hapi. lia. }
  simpl. split; [done|]. split; [done|].
  split; [rewrite count_sleep_iterations by done; lia|].
  split; [|split; [|split]].
  - intros e (i & He & _)%list_elem_of_bind Hsleep.
    unfold iteration_trace in He. case_bool_decide; simpl in He;
      repeat (apply elem_of_cons in He as [->|He]; try done);
      by apply elem_of_nil in He.
  - intros i Hi. unfold iteration_trace. by rewrite bool_decide_true.
  - unfold iteration_trace. by rewrite bool_decide_false by lia.
  - assert (seq 0 iterations = seq 0 (iterations - 1) ++ [iterations - 1])%list as ->.
    { change [iterations - 1]%nat with [0 + (iterations - 1)]%nat.
      rewrite <- (seq_S (iterations - 1) 0). f_equal. lia. }
    rewrite bind_app, last_app. simpl. rewrite app_nil_r.
    unfold iteration_trace. by rewrite bool_decide_false by lia.
Qed.

(** An API call that raises ends the run there: later iterations issue no
    call and write no file. *)
Lemma tracking_loop_aborts i range acc w :
  serp_goog (calls w) queries = None →
  tracking_loop serp_goog now queries folder_path interval iterations
    (i :: range) acc w
  = (Raise ApiError,
     mkWorld (S (calls w)) (files w)
       (trace w ++ [EvInfo (i + 1) iterations; EvFetch queries])).
Proof.
  intros Hapi. cbn [tracking_loop]. unfold mbind at 1, M_bind at 1, emit at 1.
  simpl. unfold mbind at 1, M_bind at 1.
  rewrite record_serp_raises by done. simpl. by rewrite <- app_assoc.
Qed.

End Tracking.

(** * The model on concrete inputs *)

Lemma contains_ci_empty s : contains_ci "" s = true.
Proof. by destruct s. Qed.

Lemma iso_to_datetime_length idx : length (iso_to_datetime idx) = length idx.
Proof. apply length_fmap. Qed.

Lemma neutral_polarity_range s :
  (-1 <= neutral_polarity s)%Q ∧ (neutral_polarity s <= 1)%Q.
Proof. by split. Qed.












Lemma minute_clock_distinct (i j : nat) :
  (i < 3)%nat → (j < 3)%nat → minute_clock (0 + i) = minute_clock (0 + j) → i = j.
Proof.
  intros Hi Hj.
  destruct i as [|[|[|i]]]; [| | |lia];
    (destruct j as [|[|[|j]]]; [| | |lia]); vm_compute; congruence.
Qed.

(** Three iterations on two queries with an API that answers and a clock
    that advances by a minute. *)
Lemma collector_fetches_and_writes_witness :
  (1 ≤ 3)%nat
  ∧ (∀ k, (k < 3)%nat →
       steady_api (0 + k)%nat ["SEO rank tracking"; "SERP tracking tools"]
       = Some (snapshot_of k ["SEO rank tracking"; "SERP tracking tools"]))
  ∧ ∃ w' t dfs,
      tracking_loop steady_api minute_clock ["SEO rank tracking"; "SERP tracking tools"]
        "serpdata" 60 3 (seq 0 3) [] (mkWorld 0 ∅ [])
      = (Ok dfs, w')
      ∧ length dfs = 3%nat
      ∧ trace w' = t
      ∧ count_events is_fetch t = 3%nat
      ∧ count_events is_write t = 3%nat
      ∧ files w' !! "serpdata/serp_0101202512_02_00_scheduled_serp.csv"
        = Some (snapshot_of 2 ["SEO rank tracking"; "SERP tracking tools"]).
Proof.
  split; [lia|]. split; [done|].
  destruct (collector_fetches_and_writes steady_api minute_clock
              ["SEO rank tracking"; "SERP tracking tools"] "serpdata" 60 3
              (λ k, snapshot_of k ["SEO rank tracking"; "SERP tracking tools"])
              (mkWorld 0 ∅ []) ltac:(lia) ltac:(done))
    as (w' & t & Hrun & Hlen & Htrace & Hfetch & Hwrite & _ & _ & _ & Hfiles).
  eexists w', t, _. split; [exact Hrun|]. split; [exact Hlen|].
  split; [exact Htrace|]. split; [exact Hfetch|]. split; [exact Hwrite|].
  apply (proj2 (Hfiles minute_clock_distinct) 2%nat). lia.
Defined.

(** Three iterations sleep twice and end with the third file. *)
Lemma collector_sleeps_witness :
  (1 ≤ 3)%nat
  ∧ (∀ k, (k < 3)%nat →
       steady_api (0 + k)%nat ["SEO rank tracking"; "SERP tracking tools"]
       = Some (snapshot_of k ["SEO rank tracking"; "SERP tracking tools"]))
  ∧ ∃ w' dfs,
      tracking_loop steady_api minute_clock ["SEO rank tracking"; "SERP tracking tools"]
        "serpdata" 60 3 (seq 0 3) [] (mkWorld 0 ∅ [])
      = (Ok dfs, w')
      ∧ count_events is_sleep (trace w') = 2%nat
      ∧ last (trace w')
        = Some (EvWrite "serpdata/serp_0101202512_02_00_scheduled_serp.csv").
Proof.
  split; [lia|]. split; [done|].
  destruct (collector_sleeps steady_api minute_clock
              ["SEO rank tracking"; "SERP tracking tools"] "serpdata" 60 3
              (λ k, snapshot_of k ["SEO rank tracking"; "SERP tracking tools"])
              (mkWorld 0 ∅ []) ltac:(lia) ltac:(done))
    as (w' & t & Hrun & Htrace & _ & Hsleep & _ & _ & _ & Hlast).
  eexists w', _. split; [exact Hrun|]. rewrite Htrace. split; [exact Hsleep|].
  exact Hlast.
Defined.

(** A run whose third API call raises: two files are on disk, the third
    iteration has called the API and written nothing. *)
Lemma flaky_run_stops_at_third_call :
  ∃ w',
    tracking_loop flaky_api minute_clock ["SERP tracking tools"] "serpdata" 60 3
      (seq 0 3) [] (mkWorld 0 ∅ [])
    = (Raise ApiError, w')
    ∧ count_events is_fetch (trace w') = 3%nat
    ∧ count_events is_write (trace w') = 2%nat
    ∧ size (files w') = 2%nat.
Proof.
  eexists. split; [vm_compute; reflexivity|]. repeat split; by vm_compute.
Qed.

(** ** Export and re-import *)

Lemma forallb_true_Forall {A : Type} (f : A → bool) (l : list A) :
  forallb f l = true → Forall (λ x, f x = true) l.
Proof.
  induction l as [|x l IH]; simpl; [constructor|].
  intros [Hx Hl]%andb_prop. constructor; auto.
Qed.

Lemma Forall_forallb_true {A : Type} (f : A → bool) (l : list A) :
  Forall (λ x, f x = true) l → forallb f l = true.
Proof. induction 1 as [|x l Hx _ IH]; simpl; [done|]. by rewrite Hx, IH. Qed.

Lemma Exists_forallb_false {A : Type} (f : A → bool) (l : list A) :
  Exists (λ x, f x = false) l → forallb f l = false.
Proof.
  induction 1 as [x l Hx|x l _ IH]; simpl.
  - by rewrite Hx.
  - rewrite IH. apply andb_false_r.
Qed.

Lemma fmap_fixed {A : Type} (f : A → A) (l : list A) :
  Forall (λ x, f x = x) l → f <$> l = l.
Proof. induction 1 as [|x l Hx _ IH]; csimpl; [done|]. by rewrite Hx, IH. Qed.

Lemma is_na_empty : is_na "" = true.
Proof. by vm_compute. Qed.

Lemma is_na_bool_word (b : bool) : is_na (if b then "True" else "False") = false.
Proof. destruct b; by vm_compute. Qed.

Lemma parse_bool_word (b : bool) : parse_bool (if b then "True" else "False") = Some b.
Proof. destruct b; by vm_compute. Qed.

Section CsvProperties.
Context (repr_num : Q → string).
Context (parse_number : string → option Q).
Context {Timestamp : Type}.
Context (to_datetime : list cell → list (option Timestamp)).
Context (strftime : Timestamp → string).

(** [pd.to_datetime] returns one timestamp (or NaT) per label. *)
Hypothesis to_datetime_length : ∀ idx, length (to_datetime idx) = length idx.
(** The words for booleans spell no number. *)
Hypothesis bool_words_not_numbers :
  parse_number "True" = None ∧ parse_number "False" = None.

Lemma numeric_field_bool_word (b : bool) :
  numeric_field parse_number (if b then "True" else "False") = false.
Proof.
  destruct bool_words_not_numbers as [Ht Hf]. unfold numeric_field.
  rewrite is_na_bool_word. destruct b; [rewrite Ht|rewrite Hf]; by vm_compute.
Qed.

Lemma infer_numeric col :
  Forall (numeric_cell repr_num parse_number) col →
  infer_column parse_number (csv_field repr_num <$> col) = col.
Proof.
  intros Hcol. unfold infer_column. rewrite Forall_forallb_true.
  - rewrite <- list_fmap_compose. apply fmap_fixed.
    eapply Forall_impl; [exact Hcol|]. intros c [->|(q & -> & Hna & Hq)]; simpl.
    + by rewrite ?is_na_empty.
    + by rewrite Hna, Hq.
  - apply Forall_fmap. eapply Forall_impl; [exact Hcol|].
    intros c [->|(q & -> & Hna & Hq)]; unfold numeric_field; simpl.
    + by rewrite ?is_na_empty.
    + rewrite Hq. apply orb_true_r.
Qed.

Lemma infer_boolean col :
  Forall boolean_cell col →
  infer_column parse_number (csv_field repr_num <$> col) = col.
Proof.
  intros Hcol. unfold infer_column.
  destruct (forallb (numeric_field parse_number) (csv_field repr_num <$> col))
    eqn:Hnum.
  - apply forallb_true_Forall in Hnum.
    rewrite <- list_fmap_compose. apply fmap_fixed.
    induction Hcol as [|c col Hc _ IH]; [constructor|].
    apply Forall_cons in Hnum as [Hc' Hnum]. constructor; [|by apply IH].
    destruct Hc as [->|[b ->]]; simpl in *.
    + by rewrite ?is_na_empty.
    + by rewrite numeric_field_bool_word in Hc'.
  - rewrite Forall_forallb_true.
    + rewrite <- list_fmap_compose. apply fmap_fixed.
      eapply Forall_impl; [exact Hcol|]. intros c [->|[b ->]]; simpl.
      * by rewrite ?is_na_empty.
      * by rewrite is_na_bool_word, parse_bool_word.
    + apply Forall_fmap. eapply Forall_impl; [exact Hcol|].
      intros c [->|[b ->]]; unfold boolean_field; simpl.
      * by rewrite ?is_na_empty.
      * rewrite parse_bool_word. apply orb_true_r.
Qed.

Lemma infer_text col :
  Forall text_cell col →
  Exists (λ c, ∃ s, c = CStr s ∧ is_na s = false ∧ parse_number s = None) col →
  Exists (λ c, ∃ s, c = CStr s ∧ is_na s = false ∧ parse_bool s = None) col →
  infer_column parse_number (csv_field repr_num <$> col) = col.
Proof.
  intros Hcol Hnum Hbool. unfold infer_column.
  rewrite Exists_forallb_false, Exists_forallb_false.
  - rewrite <- list_fmap_compose. apply fmap_fixed.
    eapply Forall_impl; [exact Hcol|]. intros c [->|(s & -> & Hna)]; simpl.
    + by rewrite ?is_na_empty.
    + by rewrite Hna.
  - apply Exists_fmap. eapply Exists_impl; [exact Hbool|].
    intros c (s & -> & Hna & Hs). unfold boolean_field. simpl. by rewrite Hna, Hs.
  - apply Exists_fmap. eapply Exists_impl; [exact Hnum|].
    intros c (s & -> & Hna & Hs). unfold numeric_field. simpl. by rewrite Hna, Hs.
Qed.

Lemma infer_read_back col :
  read_back repr_num parse_number col →
  infer_column parse_number (csv_field repr_num <$> col) = col.
Proof.
  intros [H|[H|(H & Hnum & Hbool)]].
  - by apply infer_numeric.
  - by apply infer_boolean.
  - by apply infer_text.
Qed.

(** The file the session exports is read back as the exported table with
    its index as the column [queryTime], as long as every column is read
    back as it was written. *)
Lemma read_csv_export serp_csv :
  columns serp_csv !! "" = None →
  read_back repr_num parse_number (index serp_csv) →
  map_Forall (λ _ col, read_back repr_num parse_number col) (columns serp_csv) →
  read_csv parse_number (export repr_num serp_csv)
  = mkDF (range_index (nrows serp_csv))
      (<["queryTime" := index serp_csv]> (columns serp_csv)).
Proof.
  intros Hname Hidx Hcols. unfold read_csv, export, to_csv.
  rewrite imap_cons. cbn [fst snd]. f_equal.
  { by rewrite length_fmap. }
  rewrite list_to_map_cons, (infer_read_back _ Hidx).
  replace (header_name 0 "queryTime") with "queryTime" by by vm_compute.
  f_equal.
  transitivity (list_to_map (map_to_list (columns serp_csv)) : gmap string (list cell));
    [|apply list_to_map_to_list].
  f_equal. rewrite imap_fmap.
  transitivity (imap (const id) (map_to_list (columns serp_csv)));
    [|by rewrite imap_const, list_fmap_id].
  apply imap_ext.
  intros i [name col] Hi%list_elem_of_lookup_2%elem_of_map_to_list. simpl.
  rewrite (infer_read_back col) by by apply Hcols in Hi.
  unfold header_name. by rewrite decide_False by congruence.
Qed.

(** C9, amended. Exporting a merged table and re-importing the file
    returns the same table, rows and index alike, as long as every column
    is read back as it was written: numbers that are printed and read
    exactly, booleans, or texts none of which is one of the words
    [pd.read_csv] takes for a missing value and that do not all spell
    numbers or all spell booleans; no column carries the empty name; and
    parsing the index labels again returns them. *)
Theorem export_reimport serp_csv :
  wf serp_csv →
  columns serp_csv !! "queryTime" = None →
  columns serp_csv !! "Unnamed: 0" = None →
  columns serp_csv !! "" = None →
  read_back repr_num parse_number (index serp_csv) →
  time_label strftime <$> to_datetime (index serp_csv) = index serp_csv →
  map_Forall (λ _ col, read_back repr_num parse_number col) (columns serp_csv) →
  ∃ t,
    reimport parse_number to_datetime strftime (export repr_num serp_csv) = Ok t
    ∧ rows_of t = rows_of serp_csv
    ∧ t = serp_csv.
Proof.
  intros Hwf Hqt Hun Hname Hidx Hparse Hcols.
  unfold reimport, upload. csimpl. rewrite read_csv_export by done.
  set (df := mkDF _ _).
  assert (wf df) as Hwf'.
  { intros name col. unfold df, nrows. simpl. rewrite lookup_insert.
    rewrite length_range_index. case_decide; [by intros [= <-]|]. apply Hwf. }
  assert ("queryTime" ∈ column_names [df]) as Hin.
  { unfold column_names, df. simpl. rewrite dom_insert_L.
    by apply elem_of_union_l, elem_of_union_l, elem_of_singleton. }
  destruct (merge_tables_ok to_datetime strftime to_datetime_length [df])
    as (t & Ht & Hindex & Hlookup); [done|by constructor|done|].
  assert (t = serp_csv) as ->; [|by exists serp_csv].
  destruct t as [idx cols], serp_csv as [idx0 cols0]. simpl in *. f_equal.
  - rewrite Hindex. unfold column_or_nan, df. simpl.
    by rewrite lookup_insert_eq, app_nil_r.
  - apply map_eq. intros name. rewrite Hlookup.
    destruct (decide (name = "Unnamed: 0" ∨ name = "queryTime")) as [[->| ->]|Hne];
      [done..|].
    unfold column_names, column_or_nan, df. simpl.
    rewrite dom_insert_L, lookup_insert_ne by (intros <-; apply Hne; by right).
    destruct (cols0 !! name) as [col|] eqn:Hcol.
    + rewrite decide_True; [by rewrite app_nil_r|].
      apply elem_of_union_l, elem_of_union_r, elem_of_dom. by eexists.
    + rewrite decide_False; [done|].
      intros [[Hq%elem_of_singleton|Hd%elem_of_dom]%elem_of_union|[]%elem_of_empty]%elem_of_union.
      * apply Hne. by right.
      * rewrite Hcol in Hd. by destruct Hd.
Qed.

End CsvProperties.

Lemma parse_whole_bool_words : parse_whole "True" = None ∧ parse_whole "False" = None.
Proof. by vm_compute. Qed.

(** A table of two results with texts and whole numbers comes back from its
    export. *)
Lemma export_reimport_witness :
  (∀ idx, length (iso_to_datetime idx) = length idx)
  ∧ (parse_whole "True" = None ∧ parse_whole "False" = None)
  ∧ wf ex_session
  ∧ columns ex_session !! "queryTime" = None
  ∧ columns ex_session !! "Unnamed: 0" = None
  ∧ columns ex_session !! "" = None
  ∧ read_back repr_whole parse_whole (index ex_session)
  ∧ time_label id <$> iso_to_datetime (index ex_session) = index ex_session
  ∧ map_Forall (λ _ col, read_back repr_whole parse_whole col) (columns ex_session)
  ∧ reimport parse_whole iso_to_datetime id (export repr_whole ex_session)
    = Ok ex_session.
Proof.
  assert (wf ex_session) as Hwf.
  { apply (bool_decide_unpack (wf ex_session)). by vm_compute. }
  assert (∀ s, is_na s = false → parse_whole s = None → parse_bool s = None →
               ∀ col, Forall (text_cell) (CStr s :: col) →
               read_back repr_whole parse_whole (CStr s :: col)) as Htext.
  { intros s H1 H2 H3 col Hcol. right. right. split; [exact Hcol|].
    split; apply Exists_cons_hd; by exists s. }
  assert (read_back repr_whole parse_whole (index ex_session)) as Hidx.
  { apply Htext; try by vm_compute.
    repeat (apply Forall_cons_2;
              [right; eexists; split; [reflexivity|by vm_compute]|]).
    apply Forall_nil_2. }
  assert (map_Forall (λ _ col, read_back repr_whole parse_whole col)
            (columns ex_session)) as Hcols.
  { apply map_Forall_to_list.
    replace (map_to_list (columns ex_session)) with
      [("searchTerms", [CStr "SERP tracking tools"; CStr "SEO rank tracking"]);
       ("rank", [CNum 1; CNum 1]);
       ("title", [CStr "Best SERP trackers"; CStr "Rank tracking guide"])]
      by by vm_compute.
    repeat apply Forall_cons_2; try apply Forall_nil_2; simpl.
    - apply Htext; try by vm_compute.
      repeat (apply Forall_cons_2;
                [right; eexists; split; [reflexivity|by vm_compute]|]).
      apply Forall_nil_2.
    - left.
      repeat (apply Forall_cons_2;
                [right; exists 1%Q; repeat split; by vm_compute|]).
      apply Forall_nil_2.
    - apply Htext; try by vm_compute.
      repeat (apply Forall_cons_2;
              [right; eexists; split; [reflexivity|by vm_compute]|]).
    apply Forall_nil_2. }
  split; [exact iso_to_datetime_length|]. split; [exact parse_whole_bool_words|].
  split; [exact Hwf|]. split; [by vm_compute|]. split; [by vm_compute|].
  split; [by vm_compute|]. split; [exact Hidx|]. split; [by vm_compute|].
  split; [exact Hcols|].
  destruct (export_reimport repr_whole parse_whole iso_to_datetime id
              iso_to_datetime_length parse_whole_bool_words ex_session Hwf
              ltac:(by vm_compute) ltac:(by vm_compute) ltac:(by vm_compute)
              Hidx ltac:(by vm_compute) Hcols)
    as (t & Ht & _ & ->).
  exact Ht.
Defined.

(** C9, as stated, fails: a merged table with a result titled "N/A" does
    not come back from its own export.  [to_csv] writes the title as it is,
    [pd.read_csv] takes the field for a missing value, and the re-imported
    row has no title. *)
Lemma na_title_lost_on_reimport :
  ∃ t,
    reimport parse_whole iso_to_datetime id (export repr_whole ex_na_title) = Ok t
    ∧ columns ex_na_title !! "title" = Some [CStr "N/A"]
    ∧ columns t !! "title" = Some [CNaN]
    ∧ rows_of t ≠ rows_of ex_na_title.
Proof.
  eexists. split; [vm_compute; reflexivity|].
  split; [by vm_compute|]. split; [by vm_compute|].
  intros Hrows.
  apply (f_equal (fmap (M := list) (λ r : row, r.2 !! "title"))) in Hrows.
  vm_compute in Hrows. discriminate.
Qed.

(** * Further properties of the script *)

(** ** The query list (line 50) *)

























(** ** The credentials (lines 19-44) *)

Lemma truthy_Some (o : option string) :
  truthy o = true → ∃ s, o = Some s ∧ s ≠ "".
Proof.
  destruct o as [s|]; simpl; [|done].
  case_bool_decide; [done|]. intros _. by exists s.
Qed.

Lemma py_or_nonempty a b : b ≠ "" → py_or a b ≠ "".
Proof. intros Hb. unfold py_or. by case_bool_decide. Qed.

Lemma py_or_entered a b : a ≠ "" → py_or a b = a.
Proof. intros Ha. unfold py_or. by rewrite bool_decide_false. Qed.

(** X4. When the run goes on, both credentials are non-empty, a credential
    the operator entered is the one in use, and the operator is told about
    defaults exactly when an input was empty. *)
Theorem resolve_credentials_proceed api_key cse_id secrets key cx info :
  resolve_credentials api_key cse_id secrets = Proceed key cx info →
  key ≠ "" ∧ cx ≠ ""
  ∧ (api_key ≠ "" → key = api_key)
  ∧ (cse_id ≠ "" → cx = cse_id)
  ∧ (info = true ↔ api_key = "" ∨ cse_id = "").
Proof.
  unfold resolve_credentials. case_bool_decide as Hempty.
  - destruct (truthy (secrets !! "API_KEY")) eqn:Hk; [|done].
    destruct (truthy (secrets !! "CSE_ID")) eqn:Hc; [|done].
    apply truthy_Some in Hk as (k & -> & Hk). apply truthy_Some in Hc as (c & -> & Hc).
    simpl. intros [= <- <- <-].
    split; [by apply py_or_nonempty|]. split; [by apply py_or_nonempty|].
    split; [apply py_or_entered|]. split; [apply py_or_entered|done].
  - intros [= <- <- <-].
    assert (api_key ≠ "" ∧ cse_id ≠ "") as [Hk Hc].
    { split; intros ->; apply Hempty; auto. }
    repeat split; try done.
Qed.

(** X5. The run stops exactly when an input is empty and the secrets do not
    hold both defaults.  One missing default is enough: an operator who
    entered the key and left the engine identifier to the secrets is stopped
    when the secrets hold the identifier but no key. *)
Theorem resolve_credentials_stop_iff api_key cse_id secrets :
  resolve_credentials api_key cse_id secrets = Stop
  ↔ (api_key = "" ∨ cse_id = "")
    ∧ (truthy (secrets !! "API_KEY") = false ∨ truthy (secrets !! "CSE_ID") = false).
Proof.
  unfold resolve_credentials. case_bool_decide as Hempty.
  - destruct (truthy (secrets !! "API_KEY")), (truthy (secrets !! "CSE_ID")); simpl.
    + split; [done|]. by intros [_ [?|?]].
    + split; [|done]. intros _. split; [done|by right].
    + split; [|done]. intros _. split; [done|by left].
    + split; [|done]. intros _. split; [done|by left].
  - split; [done|]. by intros [? _].
Qed.

(** ** More on the result filter (lines 153-166) *)

Lemma select_sublist {A : Type} (bs : list bool) (l : list A) :
  select bs l `sublist_of` l.
Proof.
  revert l. induction bs as [|b bs IH]; intros [|x l]; simpl; try done.
  - apply sublist_nil_l.
  - destruct b; [by apply sublist_skip|by apply sublist_cons].
Qed.



Lemma cell_contains_texts search (col : list cell) (bs : list bool) :
  cell_contains search <$> col = MBool <$> bs → Forall is_text col.
Proof.
  revert bs. induction col as [|c col IH]; intros [|b bs]; csimpl; try done.
  intros [= Hc Hcol]. constructor; [|by eapply IH].
  destruct c as [s| | |]; try done. by exists s.
Qed.


Section FilterMore.
Context (re_compile : string → option (string → bool)).


(** X7. A table the filter returns is a part of the table it was given:
    the same columns, the rows a selection of the given rows in their order
    with no cell changed, and the result is well formed. *)
Theorem filter_results_subtable keyword field df r :
  wf df →
  filter_results re_compile keyword field df = Ok r →
  wf r
  ∧ dom (columns r) = dom (columns df)
  ∧ rows_of r `sublist_of` rows_of df
  ∧ (nrows r ≤ nrows df)%nat.
Proof.
  intros Hwf Hr.
  destruct (filter_results_inv _ _ _ _ _ Hr) as (search & bs & Hre & Hmask & ->).
  assert (length bs = nrows df) as Hlen.
  { apply (field_mask_length _ _ _ _ Hwf) in Hmask. by rewrite length_fmap in Hmask. }
  split; [by apply wf_selected|]. split; [|split].
  - unfold selected. simpl. apply dom_fmap_L.
  - rewrite rows_of_selected by done. apply select_sublist.
  - unfold nrows, selected. simpl. apply sublist_length, select_sublist.
Qed.


End FilterMore.

(** ** Reruns of the analysis, bubble sizes and the word cloud
       (lines 104-132, 168-169, 210-211, 237) *)

Lemma getcol_Ok name df col : getcol name df = Ok col → columns df !! name = Some col.
Proof. unfold getcol. destruct (columns df !! name); [by intros [= ->]|done]. Qed.

Section Rerun.
Context (polarity : string → Q).
Context (repr_num : Q → string).
Context (re_compile : string → option (string → bool)).

Lemma derive_sentiment_inv df serp_csv :
  derive_sentiment polarity repr_num df = Ok serp_csv →
  ∃ title,
    columns df !! "title" = Some title
    ∧ serp_csv
      = setcol "sentiment_positive"
          ((λ x, CNum (polarity (py_str repr_num x) + 1)) <$> title)
          (setcol "sentiment" (sentiment_of polarity repr_num <$> title) df).
Proof.
  intros Hd. destruct (getcol "title" df) as [title|e] eqn:Htitle.
  - apply getcol_Ok in Htitle. exists title. split; [done|].
    rewrite (derive_sentiment_ok _ _ _ _ Htitle) in Hd. by injection Hd as <-.
  - unfold derive_sentiment in Hd. by rewrite Htitle in Hd.
Qed.

(** The session table that has its sentiment columns is left as it is by
    a second pass of lines 127-132. *)
Lemma derive_sentiment_again df serp_csv :
  derive_sentiment polarity repr_num df = Ok serp_csv →
  derive_sentiment polarity repr_num serp_csv = Ok serp_csv.
Proof.
  intros (title & Htitle & ->)%derive_sentiment_inv.
  rewrite (derive_sentiment_ok _ _ _ title).
  2:{ simpl. by rewrite !lookup_insert_ne. }
  f_equal. unfold setcol. simpl. f_equal.
  apply map_eq. intros name.
  destruct (decide (name = "sentiment_positive")) as [->|H1].
  { by rewrite !lookup_insert_eq. }
  rewrite (lookup_insert_ne _ "sentiment_positive" name) by done.
  destruct (decide (name = "sentiment")) as [->|H2].
  { by rewrite lookup_insert_eq, lookup_insert_ne, lookup_insert_eq. }
  by rewrite !lookup_insert_ne.
Qed.

(** X9. Streamlit runs lines 104-237 again on the table the last run left
    in the session, the one that already has its sentiment columns: the
    second pass changes nothing in it and gives the same filtered table, or
    the same exception. *)
Theorem analysis_rerun keyword field df serp_csv res :
  analysis polarity repr_num re_compile keyword field df = Ok (serp_csv, res) →
  analysis polarity repr_num re_compile keyword field serp_csv = Ok (serp_csv, res).
Proof.
  unfold analysis. intros Ha.
  destruct (derive_sentiment polarity repr_num df) as [t|e] eqn:Hd; [|done].
  simpl in Ha. injection Ha as <- <-.
  by rewrite (derive_sentiment_again _ _ Hd).
Qed.

(** [TextBlob]'s polarity lies between -1 and 1. *)
Hypothesis polarity_range : ∀ s, (-1 <= polarity s)%Q ∧ (polarity s <= 1)%Q.

(** X10. Both charts get the same sizes: on the filtered table the columns
    [bubble_size] and [sentiment_size] are one and the same column, it has a
    size for every row, and every size is a number between 10 and 50, so
    the marker size is never missing, zero or negative. *)
Theorem bubble_size_range keyword field df serp_csv out :
  wf df →
  analysis polarity repr_num re_compile keyword field df = Ok (serp_csv, Ok out) →
  ∃ bubble,
    columns out !! "bubble_size" = Some bubble
    ∧ columns out !! "sentiment_size" = Some bubble
    ∧ length bubble = nrows out
    ∧ Forall (λ c, ∃ b, c = CNum b ∧ (10 <= b)%Q ∧ (b <= 50)%Q) bubble.
Proof.
  intros Hwf Ha. unfold analysis in Ha.
  destruct (derive_sentiment polarity repr_num df) as [t|e] eqn:Hd; [|done].
  simpl in Ha. injection Ha as <- Hres.
  destruct (filter_results re_compile keyword field t) as [serp_results|e] eqn:Hf; [|done].
  simpl in Hres.
  destruct (derive_sentiment_inv _ _ Hd) as (title & Htitle & _).
  destruct (derive_sizes_filtered _ _ _ keyword field df title t serp_results
              Hwf Htitle Hd Hf) as (bs & Hbs & -> & Hout).
  rewrite Hout in Hres. injection Hres as <-.
  assert (length title = nrows df) as Hlen by by apply Hwf in Htitle.
  eexists. split; [|split; [|split]].
  - simpl. by rewrite 2!lookup_insert_ne, lookup_insert_eq.
  - simpl. by rewrite lookup_insert_eq.
  - apply (derive_sentiment_inv) in Hd as (title' & Htitle' & ->).
    unfold nrows. simpl. rewrite length_fmap, !select_length; [done|..].
    + unfold nrows in Hbs. congruence.
    + rewrite length_fmap. congruence.
  - apply Forall_fmap, select_Forall, Forall_fmap, Forall_true. intros x. simpl.
    destruct (polarity_range (py_str repr_num x)) as [Hlo Hhi].
    eexists. split; [done|]. split; lra.
Qed.

End Rerun.

(** *** The word-cloud text *)

Lemma py_join_texts sep (col : list cell) :
  Forall is_text col → py_join sep col = Ok (join_with sep (texts_of col)).
Proof.
  induction 1 as [|c col [s ->] Hcol IH]; [done|].
  destruct Hcol as [|c' col' [s' ->] Hcol']; [done|].
  change (py_join sep (CStr s :: CStr s' :: col'))
    with (py_join sep (CStr s' :: col') ≫= λ rest, Ok (s +:+ sep +:+ rest)).
  by rewrite IH.
Qed.

Lemma py_join_Ok sep (col : list cell) text :
  py_join sep col = Ok text → Forall is_text col.
Proof.
  revert text. induction col as [|c col IH]; intros text Hj; [constructor|].
  destruct c as [s| | |]; try done.
  constructor; [by exists s|].
  destruct col as [|c' col']; [constructor|].
  change (py_join sep (CStr s :: c' :: col'))
    with (py_join sep (c' :: col') ≫= λ rest, Ok (s +:+ sep +:+ rest)) in Hj.
  destruct (py_join sep (c' :: col')) as [rest|e] eqn:Hrest; [|done].
  by eapply IH.
Qed.

Lemma dropna_texts (col : list cell) :
  Forall is_text (dropna col) ↔ Forall (λ c, c = CNaN ∨ is_text c) col.
Proof.
  unfold dropna. induction col as [|c col IH]; simpl.
  - split; constructor.
  - destruct c as [s|q|b|]; rewrite ?Forall_cons, IH; split.
    + intros [_ H]. split; [right; by exists s|done].
    + intros [_ H]. split; [by exists s|done].
    + intros [[s' [=]] _].
    + intros [[[=]|[s' [=]]] _].
    + intros [[s' [=]] _].
    + intros [[[=]|[s' [=]]] _].
    + intros H. split; [by left|done].
    + by intros [_ H].
Qed.

Lemma texts_of_dropna (col : list cell) : texts_of (dropna col) = texts_of col.
Proof.
  unfold texts_of, dropna. induction col as [|c col IH]; [done|].
  destruct c; csimpl; by rewrite IH.
Qed.

Lemma wordcloud_text_ok serp_results title :
  columns serp_results !! "title" = Some title →
  Forall (λ c, c = CNaN ∨ is_text c) title →
  wordcloud_text serp_results = Ok (join_with " " (texts_of title)).
Proof.
  intros Htitle Htexts. unfold wordcloud_text, getcol. rewrite Htitle. simpl.
  rewrite py_join_texts by by apply dropna_texts.
  by rewrite texts_of_dropna.
Qed.

(** X11. The word-cloud text is there exactly when the filtered table has a
    [title] column whose cells are texts or missing, and it is the titles
    that are texts, top to bottom, with one blank between them; a title
    that is a number or a boolean makes the [join] raise. *)
Theorem wordcloud_text_iff serp_results text :
  wordcloud_text serp_results = Ok text
  ↔ ∃ title,
      columns serp_results !! "title" = Some title
      ∧ Forall (λ c, c = CNaN ∨ is_text c) title
      ∧ text = join_with " " (texts_of title).
Proof.
  unfold wordcloud_text, getcol. split.
  - destruct (columns serp_results !! "title") as [title|]; [|done]. simpl.
    intros Hj. exists title. split; [done|].
    pose proof (py_join_Ok _ _ _ Hj) as Htexts.
    rewrite (py_join_texts _ _ Htexts), texts_of_dropna in Hj.
    split; [by apply dropna_texts|congruence].
  - intros (title & Htitle & Htexts & ->). by apply wordcloud_text_ok.
Qed.

Section WordCloud.
Context (polarity : string → Q).
Context (repr_num : Q → string).
Context (re_compile : string → option (string → bool)).

(** X12. With every title a text or missing, and always after a filter by
    "Title", a run that got its filtered table also gets its word-cloud
    text: the [join] of line 237 does not raise there. *)
Theorem wordcloud_text_after_filter keyword field df title serp_csv out :
  wf df →
  columns df !! "title" = Some title →
  field = Title ∨ Forall (λ c, c = CNaN ∨ is_text c) title →
  analysis polarity repr_num re_compile keyword field df = Ok (serp_csv, Ok out) →
  ∃ title',
    columns out !! "title" = Some title'
    ∧ title' `sublist_of` title
    ∧ wordcloud_text out = Ok (join_with " " (texts_of title')).
Proof.
  intros Hwf Htitle Hcase Ha. unfold analysis in Ha.
  destruct (derive_sentiment polarity repr_num df) as [t|e] eqn:Hd; [|done].
  simpl in Ha. injection Ha as <- Hres.
  destruct (filter_results re_compile keyword field t) as [serp_results|e] eqn:Hf; [|done].
  simpl in Hres.
  destruct (derive_sizes_filtered _ _ _ keyword field df title t serp_results
              Hwf Htitle Hd Hf) as (bs & Hbs & Hsel & Hout).
  rewrite Hout in Hres. injection Hres as <-.
  assert (columns t !! "title" = Some title) as Htitle'.
  { apply derive_sentiment_inv in Hd as (title0 & Htitle0 & ->).
    simpl. by rewrite !lookup_insert_ne. }
  assert (columns serp_results !! "title" = Some (select bs title)) as Hsel_title.
  { rewrite Hsel. unfold selected. simpl. by rewrite lookup_fmap, Htitle'. }
  exists (select bs title). split; [|split].
  - simpl. by rewrite !lookup_insert_ne.
  - apply select_sublist.
  - apply wordcloud_text_ok.
    + simpl. by rewrite !lookup_insert_ne.
    + destruct Hcase as [->|Htexts]; [|by apply select_Forall].
      destruct (filter_results_inv _ _ _ _ _ Hf) as (search & bs' & _ & Hmask & _).
      unfold field_mask, getcol in Hmask. rewrite Htitle' in Hmask.
      simpl in Hmask. injection Hmask as Hmask.
      apply select_Forall. eapply Forall_impl; [by eapply cell_contains_texts|].
      intros c Hc. by right.
Qed.

End WordCloud.

(** ** A tracking run from the button to the session (lines 68-87) *)

Lemma seq_split (n k : nat) :
  (k < n)%nat → seq 0 n = (seq 0 k ++ k :: seq (S k) (n - k - 1))%list.
Proof.
  intros Hk. replace n with (k + S (n - k - 1))%nat at 1 by lia.
  by rewrite seq_app.
Qed.

Lemma column_names_fmap (snap : nat → DataFrame) (l : list nat) name :
  name ∈ column_names (snap <$> l) ↔ ∃ k, k ∈ l ∧ is_Some (columns (snap k) !! name).
Proof.
  unfold column_names. rewrite elem_of_union_list. split.
  - intros (X & HX & Hname). apply list_elem_of_fmap in HX as (df & -> & Hdf).
    apply list_elem_of_fmap in Hdf as (k & -> & Hk).
    exists k. split; [done|]. by apply elem_of_dom.
  - intros (k & Hk & Hname). exists (dom (columns (snap k))). split.
    + apply list_elem_of_fmap. exists (snap k). split; [done|].
      apply list_elem_of_fmap. by exists k.
    + by apply elem_of_dom.
Qed.

Section TrackingMore.
Context {Timestamp : Type}.
Context (to_datetime : list cell → list (option Timestamp)).
Context (strftime : Timestamp → string).
Context (serp_goog : nat → list string → option DataFrame).
Context (now : nat → string).
Context (queries : list string).
Context (folder_path : string).
Context (interval iterations : nat).

(** The iterations [a .. a + n - 1] of the loop, whose API calls answer,
    with more iterations to come. *)
Lemma tracking_loop_prefix (snap : nat → DataFrame) c0 n a rest acc w :
  calls w = (c0 + a)%nat →
  (∀ k, (a ≤ k < a + n)%nat → serp_goog (c0 + k)%nat queries = Some (snap k)) →
  tracking_loop serp_goog now queries folder_path interval iterations
    (seq a n ++ rest)%list acc w
  = tracking_loop serp_goog now queries folder_path interval iterations rest
      (acc ++ (snap <$> seq a n))%list
      (mkWorld (c0 + a + n)%nat
         (foldl (λ fs k, <[csv_path folder_path (now (c0 + k)%nat) := snap k]> fs)
            (files w) (seq a n))
         (trace w ++ (seq a n ≫= iteration_trace now queries folder_path interval iterations c0))).
Proof.
  revert a acc w. induction n as [|n IH]; intros a acc w Hcalls Hapi.
  - simpl. destruct w as [c f t]. simpl in *.
    by rewrite !app_nil_r, Nat.add_0_r, Hcalls.
  - cbn [seq app tracking_loop]. unfold mbind at 1, M_bind at 1, emit at 1. simpl.
    unfold mbind at 1, M_bind at 1.
    rewrite (record_serp_ok _ _ _ _ _ (snap a)) by (simpl; rewrite Hcalls; apply Hapi; lia).
    simpl. unfold mbind at 1, M_bind at 1.
    rewrite (bool_decide_ext _ (a + 1 < iterations)%nat) by lia.
    destruct (bool_decide (a + 1 < iterations)%nat) eqn:Hsleep.
    + unfold sleep, emit. simpl. rewrite IH; [|simpl; lia|intros; apply Hapi; lia].
      simpl. rewrite Hcalls. f_equal.
      * by rewrite <- app_assoc.
      * f_equal; [lia|]. by rewrite <- !app_assoc.
    + unfold mret, M_ret. rewrite IH; [|simpl; lia|intros; apply Hapi; lia].
      simpl. rewrite Hcalls. f_equal.
      * by rewrite <- app_assoc.
      * f_equal; [lia|]. by rewrite <- !app_assoc.
Qed.

Lemma count_sleep_prefix c0 (l : list nat) :
  Forall (λ i, (i + 1 < iterations)%nat) l →
  count_events is_sleep
    (l ≫= iteration_trace now queries folder_path interval iterations c0)
  = length l.
Proof.
  induction 1 as [|i l Hi _ IH]; [done|].
  rewrite bind_cons, count_events_app, IH. unfold iteration_trace.
  by rewrite bool_decide_true.
Qed.

Lemma iteration_trace_no_success c0 (l : list nat) :
  EvSuccess ∉ l ≫= iteration_trace now queries folder_path interval iterations c0.
Proof.
  intros (i & He & _)%list_elem_of_bind.
  unfold iteration_trace in He. case_bool_decide; simpl in He;
    repeat (apply elem_of_cons in He as [?|He]; try done);
    by apply elem_of_nil in He.
Qed.

(** The button's branch when the API call of iteration [k] raises. *)
Lemma start_tracking_stops (snap : nat → DataFrame) k w :
  (k < iterations)%nat →
  (∀ i, (i < k)%nat → serp_goog (calls w + i)%nat queries = Some (snap i)) →
  serp_goog (calls w + k)%nat queries = None →
  start_tracking to_datetime strftime serp_goog now queries folder_path
    interval iterations w
  = (Raise ApiError,
     mkWorld (calls w + k + 1)%nat
       (foldl (λ fs i, <[csv_path folder_path (now (calls w + i)%nat) := snap i]> fs)
          (files w) (seq 0 k))
       (trace w
        ++ (seq 0 k ≫= iteration_trace now queries folder_path interval iterations (calls w))
        ++ [EvInfo (k + 1) iterations; EvFetch queries])).
Proof.
  intros Hk Hapi Hfail. unfold start_tracking. unfold mbind at 1, M_bind at 1.
  rewrite (seq_split iterations k Hk).
  rewrite (tracking_loop_prefix snap (calls w)); [|lia|intros; apply Hapi; lia].
  rewrite tracking_loop_aborts by (simpl; rewrite Nat.add_0_r; exact Hfail).
  simpl. rewrite Nat.add_0_r, <- app_assoc. do 2 f_equal. lia.
Qed.

(** The button's branch when every API call answers: the loop, the success
    message, then the merge. *)
Lemma start_tracking_run (snap : nat → DataFrame) w :
  (∀ k, (k < iterations)%nat → serp_goog (calls w + k)%nat queries = Some (snap k)) →
  start_tracking to_datetime strftime serp_goog now queries folder_path
    interval iterations w
  = (merge_tables to_datetime strftime (snap <$> seq 0 iterations),
     mkWorld (calls w + iterations)%nat
       (foldl (λ fs i, <[csv_path folder_path (now (calls w + i)%nat) := snap i]> fs)
          (files w) (seq 0 iterations))
       (trace w
        ++ (seq 0 iterations
              ≫= iteration_trace now queries folder_path interval iterations (calls w))
        ++ [EvSuccess])).
Proof.
  intros Hapi. unfold start_tracking. unfold mbind at 1, M_bind at 1.
  rewrite (tracking_loop_run _ _ _ _ _ _ snap (calls w) iterations 0);
    [|done|lia|intros; apply Hapi; lia].
  unfold mbind, M_bind, emit, lift_result. simpl.
  rewrite Nat.add_0_r, <- app_assoc. done.
Qed.

(** What the branch has done by the time the API call of iteration [k]
    raises. *)
Lemma start_tracking_stops_world (snap : nat → DataFrame) k w :
  (k < iterations)%nat →
  (∀ i, (i < k)%nat → serp_goog (calls w + i)%nat queries = Some (snap i)) →
  serp_goog (calls w + k)%nat queries = None →
  ∃ w' t,
    start_tracking to_datetime strftime serp_goog now queries folder_path
      interval iterations w
    = (Raise ApiError, w')
    ∧ trace w' = (trace w ++ t)%list
    ∧ calls w' = (calls w + k + 1)%nat
    ∧ count_events is_fetch t = (k + 1)%nat
    ∧ count_events is_write t = k
    ∧ count_events is_sleep t = k
    ∧ (EvSuccess ∉ t)
    ∧ (∀ i, (i < k)%nat →
         is_Some (files w' !! csv_path folder_path (now (calls w + i)%nat)))
    ∧ ∀ path,
        (∀ i, (i < k)%nat → path ≠ csv_path folder_path (now (calls w + i)%nat)) →
        files w' !! path = files w !! path.
Proof.
  intros Hk Hapi Hfail. eexists _, _.
  split; [by apply (start_tracking_stops snap k)|]. simpl.
  split; [done|]. split; [done|].
  rewrite !count_events_app, count_fetch_iterations, count_write_iterations, length_seq.
  rewrite count_sleep_prefix, length_seq.
  2:{ apply Forall_forall. intros i Hi%elem_of_seq. lia. }
  split; [unfold count_events; simpl; lia|].
  split; [unfold count_events; simpl; lia|].
  split; [unfold count_events; simpl; lia|].
  split; [|split].
  - intros [Hin|Hin]%elem_of_app.
    + by apply iteration_trace_no_success in Hin.
    + repeat (apply elem_of_cons in Hin as [?|Hin]; try done).
      by apply elem_of_nil in Hin.
  - intros i Hi. by apply written_files_exist.
  - intros path Hpath. by apply written_files_other.
Qed.

(** [pd.to_datetime] returns one timestamp (or NaT) per label. *)
Hypothesis to_datetime_length : ∀ idx, length (to_datetime idx) = length idx.

(** X13. When every API call answers and a snapshot carries [queryTime],
    the button's branch returns the merged table: as many rows as the
    snapshots have together, indexed by their query timestamps, well formed;
    the success message is the last thing the branch shows. *)
Theorem start_tracking_merges (snap : nat → DataFrame) w :
  (1 ≤ iterations)%nat →
  (∀ k, (k < iterations)%nat → serp_goog (calls w + k)%nat queries = Some (snap k)) →
  (∀ k, (k < iterations)%nat → wf (snap k)) →
  (∃ k, (k < iterations)%nat ∧ is_Some (columns (snap k) !! "queryTime")) →
  ∃ serp_csv w',
    start_tracking to_datetime strftime serp_goog now queries folder_path
      interval iterations w
    = (Ok serp_csv, w')
    ∧ last (trace w') = Some EvSuccess
    ∧ wf serp_csv
    ∧ nrows serp_csv = sum_list ((λ k, nrows (snap k)) <$> seq 0 iterations)
    ∧ index serp_csv
      = time_label strftime
          <$> to_datetime ((snap <$> seq 0 iterations) ≫= column_or_nan "queryTime").
Proof.
  intros Hpos Hapi Hwf (k0 & Hk0 & Hqt).
  rewrite (start_tracking_run snap w Hapi).
  assert (Forall wf (snap <$> seq 0 iterations)) as Hwfs.
  { apply Forall_fmap, Forall_forall. intros k Hk%elem_of_seq. apply Hwf. lia. }
  destruct (merge_tables_ok to_datetime strftime to_datetime_length
              (snap <$> seq 0 iterations)) as (t & Ht & Hidx & Hcols).
  - intros Hnil%(f_equal length). rewrite length_fmap, length_seq in Hnil. simpl in Hnil. lia.
  - done.
  - apply column_names_fmap. exists k0. split; [|done]. apply elem_of_seq. lia.
  - assert (nrows t = sum_list (nrows <$> (snap <$> seq 0 iterations))) as Hrows.
    { unfold nrows. rewrite Hidx, length_fmap, to_datetime_length.
      by apply concat_column_length. }
    exists t. eexists. split; [by rewrite Ht|]. simpl.
    split; [by rewrite !app_assoc, last_snoc|]. split; [|split; [|done]].
    + intros name col Hcol. rewrite Hcols in Hcol. rewrite Hrows.
      destruct (decide (name = "Unnamed: 0" ∨ name = "queryTime")); [done|].
      destruct (decide (name ∈ column_names (snap <$> seq 0 iterations))); [|done].
      injection Hcol as <-. by apply concat_column_length.
    + by rewrite Hrows, <- list_fmap_compose.
Qed.

(** X14. When every API call answers but no snapshot carries [queryTime],
    the branch writes every file and shows the success message, and only
    then raises: the merge turns the tables down. *)
Theorem start_tracking_without_query_time (snap : nat → DataFrame) w :
  (1 ≤ iterations)%nat →
  (∀ k, (k < iterations)%nat → serp_goog (calls w + k)%nat queries = Some (snap k)) →
  (∀ k, (k < iterations)%nat → columns (snap k) !! "queryTime" = None) →
  ∃ w' t,
    start_tracking to_datetime strftime serp_goog now queries folder_path
      interval iterations w
    = (Raise (KeyError "queryTime"), w')
    ∧ trace w' = (trace w ++ t)%list
    ∧ last t = Some EvSuccess
    ∧ count_events is_write t = iterations.
Proof.
  intros Hpos Hapi Hqt.
  rewrite (start_tracking_run snap w Hapi).
  rewrite (merge_tables_without_query_time to_datetime strftime).
  - eexists _, _. split; [done|]. simpl. split; [done|].
    split; [by rewrite last_snoc|].
    rewrite count_events_app, count_write_iterations, length_seq.
    unfold count_events. simpl. lia.
  - intros Hnil%(f_equal length). rewrite length_fmap, length_seq in Hnil. simpl in Hnil. lia.
  - intros (k & Hk%elem_of_seq & [col Hcol])%column_names_fmap.
    rewrite Hqt in Hcol by lia. done.
Qed.

End TrackingMore.

(** ** One run of the script and the session (lines 56-58, 68-106, 247-248) *)

Section ScriptMore.
Context (polarity : string → Q).
Context (repr_num : Q → string).
Context (parse_number : string → option Q).
Context (re_compile : string → option (string → bool)).
Context {Timestamp : Type}.
Context (to_datetime : list cell → list (option Timestamp)).
Context (strftime : Timestamp → string).
Context (serp_goog : nat → list string → option DataFrame).
Context (now : nat → string).
Context (queries : list string).
Context (folder_path : string).
Context (interval iterations : nat).






(** X16. The run ends with the prompt to start tracking or to upload files
    exactly when the button was not pressed, nothing is uploaded and the
    session holds no table; and a run never empties a session that holds
    one. *)
Theorem script_run_prompt_iff button uploaded_files keyword field state w :
  ((script_run polarity repr_num parse_number re_compile to_datetime strftime
      serp_goog now queries folder_path interval iterations
      button uploaded_files keyword field state w).1.1 = Ok None
   ↔ button = false ∧ uploaded_files = [] ∧ state = None)
  ∧ (is_Some state →
     is_Some (script_run polarity repr_num parse_number re_compile to_datetime strftime
                serp_goog now queries folder_path interval iterations
                button uploaded_files keyword field state w).1.2).
Proof.
  unfold script_run, display.
  destruct button.
  - destruct (start_tracking _ _ _ _ _ _ _ _ w) as [[tracked|e] w1].
    + destruct uploaded_files as [|file files'].
      * destruct (analysis _ _ _ _ _ tracked) as [[t [res|e]]|e]; simpl.
        -- destruct (wordcloud_text res); simpl; (split; [split; [done|by intros (? & _)]|done]).
        -- split; [split; [done|by intros (? & _)]|done].
        -- split; [split; [done|by intros (? & _)]|done].
      * destruct (upload _ _ _ (file :: files')) as [u|e]; simpl.
        -- destruct (analysis _ _ _ _ _ u) as [[t [res|e]]|e]; simpl.
           ++ destruct (wordcloud_text res); simpl;
                (split; [split; [done|by intros (? & _)]|done]).
           ++ split; [split; [done|by intros (? & _)]|done].
           ++ split; [split; [done|by intros (? & _)]|done].
        -- split; [split; [done|by intros (? & _)]|done].
    + simpl. split; [split; [done|by intros (? & _)]|done].
  - destruct uploaded_files as [|file files'].
    + destruct state as [df|].
      * destruct (analysis _ _ _ _ _ df) as [[t [res|e]]|e]; simpl.
        -- destruct (wordcloud_text res); simpl;
             (split; [split; [done|by intros (_ & _ & ?)]|done]).
        -- split; [split; [done|by intros (_ & _ & ?)]|done].
        -- split; [split; [done|by intros (_ & _ & ?)]|done].
      * simpl. split; [done|]. by intros [? ?].
    + destruct (upload _ _ _ (file :: files')) as [u|e]; simpl.
      * destruct (analysis _ _ _ _ _ u) as [[t [res|e]]|e]; simpl.
        -- destruct (wordcloud_text res); simpl;
             (split; [split; [done|by intros (_ & ? & _)]|done]).
        -- split; [split; [done|by intros (_ & ? & _)]|done].
        -- split; [split; [done|by intros (_ & ? & _)]|done].
      * split; [split; [done|by intros (_ & ? & _)]|done].
Qed.

(** X17. When files are uploaded in the run in which the button is pressed
    and both the tracking and the upload go through, the tracked table is
    dropped: the run goes on exactly as a run without the button that finds
    an empty session and the same uploads.  What was tracked survives only
    as the snapshot files on disk. *)
Theorem upload_replaces_tracked_table file files' keyword field state w tracked w' u :
  start_tracking to_datetime strftime serp_goog now queries folder_path
    interval iterations w = (Ok tracked, w') →
  upload parse_number to_datetime strftime (file :: files') = Ok u →
  script_run polarity repr_num parse_number re_compile to_datetime strftime
    serp_goog now queries folder_path interval iterations
    true (file :: files') keyword field state w
  = script_run polarity repr_num parse_number re_compile to_datetime strftime
      serp_goog now queries folder_path interval iterations
      false (file :: files') keyword field None w'
  ∧ (script_run polarity repr_num parse_number re_compile to_datetime strftime
       serp_goog now queries folder_path interval iterations
       true (file :: files') keyword field state w).1.2
    = Some (match derive_sentiment polarity repr_num u with
            | Ok serp_csv => serp_csv
            | Raise _ => u
            end).
Proof.
  intros Htrack Hupload. unfold script_run, display, analysis.
  rewrite Htrack, Hupload. simpl.
  split; [done|].
  destruct (derive_sentiment polarity repr_num u) as [t|e]; [|done]. simpl.
  destruct (filter_results re_compile keyword field t ≫= _) as [res|e];
    [|done].
  by destruct (wordcloud_text res).
Qed.

(** X18. When the API call of iteration [k] raises, the run ends there with
    that exception and the session keeps the table it had: nothing is
    merged, no success message is shown, uploads are not read and nothing
    is displayed, although [k] snapshot files are on disk by then; the API
    was called [k + 1] times and the run slept [k] times. *)
Theorem script_run_stops_at_failed_call (snap : nat → DataFrame) k
    uploaded_files keyword field state w :
  (k < iterations)%nat →
  (∀ i, (i < k)%nat → serp_goog (calls w + i)%nat queries = Some (snap i)) →
  serp_goog (calls w + k)%nat queries = None →
  ∃ w' t,
    script_run polarity repr_num parse_number re_compile to_datetime strftime
      serp_goog now queries folder_path interval iterations
      true uploaded_files keyword field state w
    = (Raise ApiError, state, w')
    ∧ trace w' = (trace w ++ t)%list
    ∧ calls w' = (calls w + k + 1)%nat
    ∧ count_events is_fetch t = (k + 1)%nat
    ∧ count_events is_write t = k
    ∧ count_events is_sleep t = k
    ∧ (EvSuccess ∉ t)
    ∧ (∀ i, (i < k)%nat →
         is_Some (files w' !! csv_path folder_path (now (calls w + i)%nat)))
    ∧ ∀ path,
        (∀ i, (i < k)%nat → path ≠ csv_path folder_path (now (calls w + i)%nat)) →
        files w' !! path = files w !! path.
Proof.
  intros Hk Hapi Hfail.
  destruct (start_tracking_stops_world to_datetime strftime serp_goog now queries
              folder_path interval iterations snap k w Hk Hapi Hfail)
    as (w' & t & Hrun & Hrest).
  exists w', t. split; [|exact Hrest].
  unfold script_run. by rewrite Hrun.
Qed.

End ScriptMore.

(** ** Uploaded files (lines 64 and 94-102) *)


Lemma map_Forall_list_to_map {A : Type} (P : string → A → Prop) (l : list (string * A)) :
  Forall (λ kv, P kv.1 kv.2) l → map_Forall P (list_to_map l : gmap string A).
Proof.
  intros Hl k v Hkv%elem_of_list_to_map_2.
  by apply (proj1 (Forall_forall _ _) Hl (k, v)).
Qed.

Lemma sum_nrows_ext (dfs dfs' : list DataFrame) :
  Forall2 (λ df df', nrows df' = nrows df) dfs dfs' →
  sum_list (nrows <$> dfs') = sum_list (nrows <$> dfs).
Proof. induction 1 as [|df df' dfs dfs' Hd _ IH]; csimpl; [done|]. by rewrite Hd, IH. Qed.

Lemma column_or_nan_ext name (dfs dfs' : list DataFrame) :
  Forall2 (λ df df', nrows df' = nrows df
                     ∧ columns df' !! name = columns df !! name) dfs dfs' →
  dfs' ≫= column_or_nan name = dfs ≫= column_or_nan name.
Proof.
  induction 1 as [|df df' dfs dfs' [Hn Hc] _ IH]; csimpl; [done|].
  rewrite IH. f_equal. unfold column_or_nan. by rewrite Hn, Hc.
Qed.

Lemma column_names_cons df (dfs : list DataFrame) :
  column_names (df :: dfs) = dom (columns df) ∪ column_names dfs.
Proof. done. Qed.

Lemma column_names_ext name (dfs dfs' : list DataFrame) :
  Forall2 (λ df df', columns df' !! name = columns df !! name) dfs dfs' →
  name ∈ column_names dfs' ↔ name ∈ column_names dfs.
Proof.
  induction 1 as [|df df' dfs dfs' Hc _ IH]; [done|].
  rewrite !column_names_cons, !elem_of_union, !elem_of_dom, Hc, IH. done.
Qed.

Section Uploads.
Context (repr_num : Q → string).
Context (parse_number : string → option Q).
Context {Timestamp : Type}.
Context (to_datetime : list cell → list (option Timestamp)).
Context (strftime : Timestamp → string).

(** Tables that differ only in a column [Unnamed: 0] are merged to the same
    table: the merge drops the column. *)
Lemma merge_tables_unnamed (dfs dfs' : list DataFrame) :
  Forall2 (λ df df', nrows df' = nrows df
                     ∧ ∀ name, name ≠ "Unnamed: 0" →
                         columns df' !! name = columns df !! name) dfs dfs' →
  merge_tables to_datetime strftime dfs' = merge_tables to_datetime strftime dfs.
Proof.
  intros Hall. unfold merge_tables.
  destruct (concat dfs') as [t'|e'] eqn:Ht', (concat dfs) as [t|e] eqn:Ht.
  - cbn [mbind result_bind].
    assert (drop_column "Unnamed: 0" t' = drop_column "Unnamed: 0" t) as ->; [|done].
    unfold drop_column. f_equal.
    + rewrite (concat_index _ _ Ht'), (concat_index _ _ Ht). f_equal.
      apply sum_nrows_ext. eapply Forall2_impl; [exact Hall|]. by intros ?? [? _].
    + apply map_eq. intros name. rewrite !lookup_delete.
      destruct (decide ("Unnamed: 0" = name)) as [|Hne]; [done|].
      rewrite (concat_lookup _ _ name Ht'), (concat_lookup _ _ name Ht).
      rewrite (column_or_nan_ext name dfs dfs').
      2:{ eapply Forall2_impl; [exact Hall|]. intros ?? [? Hc]. split; [done|].
          apply Hc. congruence. }
      destruct (decide (name ∈ column_names dfs')) as [Hin|Hin],
               (decide (name ∈ column_names dfs)) as [Hin0|Hin0]; try done.
      * destruct Hin0. apply (column_names_ext name dfs dfs'); [|done].
        eapply Forall2_impl; [exact Hall|]. intros ?? [_ Hc]. apply Hc. congruence.
      * destruct Hin. apply (column_names_ext name dfs dfs'); [|done].
        eapply Forall2_impl; [exact Hall|]. intros ?? [_ Hc]. apply Hc. congruence.
  - destruct Hall; done.
  - destruct Hall; done.
  - destruct Hall; simpl in *; congruence.
Qed.







(** [pd.to_datetime] returns one timestamp (or NaT) per label. *)
Hypothesis to_datetime_length : ∀ idx, length (to_datetime idx) = length idx.


(** The words for booleans spell no number. *)
Hypothesis bool_words_not_numbers :
  parse_number "True" = None ∧ parse_number "False" = None.

(** The file [df.to_csv()] writes is read back as the table with its index
    as a column, as long as every column is read back as it was written. *)
Lemma read_csv_to_csv index_name df :
  columns df !! "" = None →
  read_back repr_num parse_number (index df) →
  map_Forall (λ _ col, read_back repr_num parse_number col) (columns df) →
  read_csv parse_number (to_csv repr_num index_name df)
  = mkDF (range_index (nrows df))
      (<[header_name 0 index_name := index df]> (columns df)).
Proof.
  intros Hname Hidx Hcols. unfold read_csv, to_csv.
  rewrite imap_cons. cbn [fst snd]. f_equal.
  { by rewrite length_fmap. }
  rewrite list_to_map_cons, (infer_read_back _ _ bool_words_not_numbers _ Hidx).
  f_equal.
  transitivity (list_to_map (map_to_list (columns df)) : gmap string (list cell));
    [|apply list_to_map_to_list].
  f_equal. rewrite imap_fmap.
  transitivity (imap (const id) (map_to_list (columns df)));
    [|by rewrite imap_const, list_fmap_id].
  apply imap_ext.
  intros i [name col] Hi%list_elem_of_lookup_2%elem_of_map_to_list. simpl.
  rewrite (infer_read_back _ _ bool_words_not_numbers col) by by apply Hcols in Hi.
  unfold header_name. by rewrite decide_False by congruence.
Qed.

(** X21. The snapshot files a tracking run writes (line 64, the index
    written without a name) can be uploaded in place of the run: the upload
    merges them to the table the run merges its snapshots to, and raises
    where the run raises, as long as every column is read back as it was
    written.  The index column the files carry is the [Unnamed: 0] the merge
    drops. *)
Theorem upload_snapshot_files (collected_dfs : list DataFrame) :
  Forall (λ df,
            columns df !! "" = None
            ∧ read_back repr_num parse_number (index df)
            ∧ map_Forall (λ _ col, read_back repr_num parse_number col) (columns df))
    collected_dfs →
  upload parse_number to_datetime strftime (to_csv repr_num "" <$> collected_dfs)
  = merge_tables to_datetime strftime collected_dfs.
Proof.
  intros Hdfs. unfold upload. apply merge_tables_unnamed.
  rewrite <- list_fmap_compose. apply Forall2_fmap_r, Forall_Forall2_diag.
  eapply Forall_impl; [exact Hdfs|]. intros df (Hname & Hidx & Hcols).
  cbv beta. unfold compose. rewrite (read_csv_to_csv "" df Hname Hidx Hcols).
  split; [by unfold nrows; simpl; rewrite length_range_index|].
  intros name Hne. simpl. rewrite lookup_insert_ne; [done|].
  by replace (header_name 0 "") with "Unnamed: 0" by by vm_compute.
Qed.

End Uploads.

(** * The further properties on concrete inputs *)


(** The key left empty, the engine entered, both defaults set. *)
Lemma resolve_credentials_proceed_witness :
  resolve_credentials "" "my-engine"
    (<["API_KEY" := "default-key"]> (<["CSE_ID" := "default-engine"]> ∅))
  = Proceed "default-key" "my-engine" true
  ∧ "default-key" ≠ "" ∧ "my-engine" ≠ "".
Proof.
  assert (resolve_credentials "" "my-engine"
            (<["API_KEY" := "default-key"]> (<["CSE_ID" := "default-engine"]> ∅))
          = Proceed "default-key" "my-engine" true) as Hrun.
  { by vm_compute. }
  split; [exact Hrun|].
  destruct (resolve_credentials_proceed _ _ _ _ _ _ Hrun) as (Hkey & Hcx & _).
  split; [exact Hkey|exact Hcx].
Defined.

(** The keyword "serp" on the search terms keeps one result of two. *)
Lemma filter_results_subtable_witness :
  wf ex_session
  ∧ filter_results literal_engine "serp" SearchTerms ex_session
    = Ok (selected [true; false] ex_session)
  ∧ rows_of (selected [true; false] ex_session) `sublist_of` rows_of ex_session
  ∧ (nrows (selected [true; false] ex_session) ≤ nrows ex_session)%nat.
Proof.
  assert (wf ex_session) as Hwf.
  { apply (bool_decide_unpack (wf ex_session)). by vm_compute. }
  assert (filter_results literal_engine "serp" SearchTerms ex_session
          = Ok (selected [true; false] ex_session)) as Hr.
  { vm_compute. reflexivity. }
  split; [exact Hwf|]. split; [exact Hr|].
  destruct (filter_results_subtable literal_engine "serp" SearchTerms ex_session _ Hwf Hr)
    as (_ & _ & Hrows & Hlen).
  split; [exact Hrows|exact Hlen].
Defined.


(** The session table of two results, analysed twice. *)
Lemma analysis_rerun_witness :
  ∃ serp_csv res,
    analysis neutral_polarity repr_whole literal_engine "serp" SearchTerms ex_session
    = Ok (serp_csv, res)
    ∧ analysis neutral_polarity repr_whole literal_engine "serp" SearchTerms serp_csv
      = Ok (serp_csv, res).
Proof.
  assert (∃ p, analysis neutral_polarity repr_whole literal_engine "serp" SearchTerms
                 ex_session = Ok p) as [[serp_csv res] Ha].
  { eexists. vm_compute. reflexivity. }
  exists serp_csv, res. split; [exact Ha|].
  exact (analysis_rerun neutral_polarity repr_whole literal_engine "serp" SearchTerms
           ex_session serp_csv res Ha).
Defined.

(** The one result the keyword "serp" keeps gets the size 30 in both
    columns. *)
Lemma bubble_size_range_witness :
  (∀ s, (-1 <= neutral_polarity s)%Q ∧ (neutral_polarity s <= 1)%Q)
  ∧ wf ex_session
  ∧ ∃ serp_csv out bubble,
      analysis neutral_polarity repr_whole literal_engine "serp" SearchTerms ex_session
      = Ok (serp_csv, Ok out)
      ∧ columns out !! "bubble_size" = Some bubble
      ∧ columns out !! "sentiment_size" = Some bubble
      ∧ length bubble = 1%nat.
Proof.
  assert (wf ex_session) as Hwf.
  { apply (bool_decide_unpack (wf ex_session)). by vm_compute. }
  assert (∃ p, analysis neutral_polarity repr_whole literal_engine "serp" SearchTerms
                 ex_session = Ok (p.1, Ok p.2) ∧ nrows p.2 = 1%nat) as ([serp_csv out] & Ha & Hn).
  { eexists (_, _). split; [vm_compute; reflexivity|by vm_compute]. }
  split; [exact neutral_polarity_range|]. split; [exact Hwf|].
  destruct (bubble_size_range neutral_polarity repr_whole literal_engine
              neutral_polarity_range "serp" SearchTerms ex_session serp_csv out Hwf Ha)
    as (bubble & Hb & Hs & Hlen & _).
  exists serp_csv, out, bubble. split; [exact Ha|]. split; [exact Hb|].
  split; [exact Hs|]. simpl in Hn. by rewrite Hlen.
Defined.

(** The titles the keyword "tracking" keeps, joined for the word cloud. *)
Lemma wordcloud_text_after_filter_witness :
  wf ex_session
  ∧ columns ex_session !! "title"
    = Some [CStr "Best SERP trackers"; CStr "Rank tracking guide"]
  ∧ ∃ serp_csv out title',
      analysis neutral_polarity repr_whole literal_engine "tracking" Title ex_session
      = Ok (serp_csv, Ok out)
      ∧ columns out !! "title" = Some title'
      ∧ wordcloud_text out = Ok (join_with " " (texts_of title')).
Proof.
  assert (wf ex_session) as Hwf.
  { apply (bool_decide_unpack (wf ex_session)). by vm_compute. }
  assert (columns ex_session !! "title"
          = Some [CStr "Best SERP trackers"; CStr "Rank tracking guide"]) as Htitle.
  { by vm_compute. }
  assert (∃ p, analysis neutral_polarity repr_whole literal_engine "tracking" Title
                 ex_session = Ok (p.1, Ok p.2)) as ([serp_csv out] & Ha).
  { eexists (_, _). vm_compute. reflexivity. }
  split; [exact Hwf|]. split; [exact Htitle|].
  destruct (wordcloud_text_after_filter neutral_polarity repr_whole literal_engine
              "tracking" Title ex_session _ serp_csv out Hwf Htitle
              (or_introl eq_refl) Ha)
    as (title' & Ht & _ & Hcloud).
  exists serp_csv, out, title'. split; [exact Ha|]. split; [exact Ht|exact Hcloud].
Defined.

Lemma wf_snapshot_of k qs : wf (snapshot_of k qs).
Proof.
  apply map_Forall_list_to_map. unfold nrows. simpl.
  repeat constructor; simpl; by rewrite length_fmap, length_range_index.
Qed.

(** Three iterations of two queries are merged to a table of six rows. *)
Lemma start_tracking_merges_witness :
  (∀ idx, length (iso_to_datetime idx) = length idx)
  ∧ (1 ≤ 3)%nat
  ∧ (∀ k, (k < 3)%nat →
       steady_api (0 + k)%nat ["SEO rank tracking"; "SERP tracking tools"]
       = Some (snapshot_of k ["SEO rank tracking"; "SERP tracking tools"]))
  ∧ (∀ k, (k < 3)%nat → wf (snapshot_of k ["SEO rank tracking"; "SERP tracking tools"]))
  ∧ (∃ k, (k < 3)%nat
          ∧ is_Some (columns (snapshot_of k ["SEO rank tracking"; "SERP tracking tools"])
                     !! "queryTime"))
  ∧ ∃ serp_csv w',
      start_tracking iso_to_datetime id steady_api minute_clock
        ["SEO rank tracking"; "SERP tracking tools"] "serpdata" 60 3 (mkWorld 0 ∅ [])
      = (Ok serp_csv, w')
      ∧ last (trace w') = Some EvSuccess
      ∧ nrows serp_csv = 6%nat.
Proof.
  assert (∃ k, (k < 3)%nat
            ∧ is_Some (columns (snapshot_of k ["SEO rank tracking"; "SERP tracking tools"])
                       !! "queryTime")) as Hqt.
  { exists 0%nat. split; [lia|]. eexists. by vm_compute. }
  split; [exact iso_to_datetime_length|]. split; [lia|]. split; [done|].
  split; [intros k _; apply wf_snapshot_of|]. split; [exact Hqt|].
  destruct (start_tracking_merges iso_to_datetime id steady_api minute_clock
              ["SEO rank tracking"; "SERP tracking tools"] "serpdata" 60 3
              iso_to_datetime_length
              (λ k, snapshot_of k ["SEO rank tracking"; "SERP tracking tools"])
              (mkWorld 0 ∅ []) ltac:(lia) ltac:(done)
              ltac:(intros k _; apply wf_snapshot_of) Hqt)
    as (serp_csv & w' & Hrun & Hlast & _ & Hrows & _).
  exists serp_csv, w'. split; [exact Hrun|]. split; [exact Hlast|].
  rewrite Hrows. by vm_compute.
Defined.

(** Two iterations against an API that leaves the query timestamp out: two
    files, the success message, then the [KeyError]. *)
Lemma start_tracking_without_query_time_witness :
  (1 ≤ 2)%nat
  ∧ (∀ k, (k < 2)%nat →
       bare_api (0 + k)%nat ["SERP tracking tools"]
       = Some (drop_column "queryTime" (snapshot_of k ["SERP tracking tools"])))
  ∧ (∀ k, (k < 2)%nat →
       columns (drop_column "queryTime" (snapshot_of k ["SERP tracking tools"]))
         !! "queryTime" = None)
  ∧ ∃ w',
      start_tracking iso_to_datetime id bare_api minute_clock
        ["SERP tracking tools"] "serpdata" 60 2 (mkWorld 0 ∅ [])
      = (Raise (KeyError "queryTime"), w')
      ∧ last (trace w') = Some EvSuccess
      ∧ count_events is_write (trace w') = 2%nat.
Proof.
  assert (∀ k, (k < 2)%nat →
            columns (drop_column "queryTime" (snapshot_of k ["SERP tracking tools"]))
              !! "queryTime" = None) as Hqt.
  { intros k _. simpl. apply lookup_delete_eq. }
  split; [lia|]. split; [done|]. split; [exact Hqt|].
  destruct (start_tracking_without_query_time iso_to_datetime id bare_api minute_clock
              ["SERP tracking tools"] "serpdata" 60 2
              (λ k, drop_column "queryTime" (snapshot_of k ["SERP tracking tools"]))
              (mkWorld 0 ∅ []) ltac:(lia) ltac:(done) Hqt)
    as (w' & t & Hrun & Htrace & Hlast & Hwrite).
  exists w'. split; [exact Hrun|]. simpl in Htrace. rewrite Htrace.
  split; [exact Hlast|exact Hwrite].
Defined.


(** The button pressed while a file with the query timestamp is uploaded. *)
Lemma upload_replaces_tracked_table_witness :
  ∃ tracked w' u,
    start_tracking iso_to_datetime id steady_api minute_clock ["SERP tracking tools"]
      "serpdata" 60 2 (mkWorld 0 ∅ [])
    = (Ok tracked, w')
    ∧ upload parse_whole iso_to_datetime id [ex_file_with_time] = Ok u
    ∧ nrows tracked = 2%nat
    ∧ (script_run neutral_polarity repr_whole parse_whole literal_engine iso_to_datetime id
         steady_api minute_clock ["SERP tracking tools"] "serpdata" 60 2
         true [ex_file_with_time] "serp" SearchTerms None (mkWorld 0 ∅ [])).1.2
      = Some (match derive_sentiment neutral_polarity repr_whole u with
              | Ok serp_csv => serp_csv
              | Raise _ => u
              end).
Proof.
  assert (∃ p,
            start_tracking iso_to_datetime id steady_api minute_clock
              ["SERP tracking tools"] "serpdata" 60 2 (mkWorld 0 ∅ [])
            = (Ok p.1, p.2) ∧ nrows p.1 = 2%nat) as ([tracked w'] & Htrack & Hrows).
  { eexists (_, _). split; [vm_compute; reflexivity|by vm_compute]. }
  assert (∃ u, upload parse_whole iso_to_datetime id [ex_file_with_time] = Ok u)
    as [u Hupload].
  { eexists. vm_compute. reflexivity. }
  exists tracked, w', u. split; [exact Htrack|]. split; [exact Hupload|].
  split; [exact Hrows|].
  destruct (upload_replaces_tracked_table neutral_polarity repr_whole parse_whole
              literal_engine iso_to_datetime id steady_api minute_clock
              ["SERP tracking tools"] "serpdata" 60 2
              ex_file_with_time [] "serp" SearchTerms None (mkWorld 0 ∅ [])
              tracked w' u Htrack Hupload) as [_ Hstate].
  exact Hstate.
Defined.

(** A run of three iterations whose third API call raises, with a table in
    the session. *)
Lemma script_run_stops_at_failed_call_witness :
  (2 < 3)%nat
  ∧ (∀ i, (i < 2)%nat →
       flaky_api (0 + i)%nat ["SERP tracking tools"]
       = Some (snapshot_of i ["SERP tracking tools"]))
  ∧ flaky_api (0 + 2)%nat ["SERP tracking tools"] = None
  ∧ ∃ w',
      script_run neutral_polarity repr_whole parse_whole literal_engine iso_to_datetime id
        flaky_api minute_clock ["SERP tracking tools"] "serpdata" 60 3
        true [] "serp" SearchTerms (Some ex_session) (mkWorld 0 ∅ [])
      = (Raise ApiError, Some ex_session, w')
      ∧ calls w' = 3%nat
      ∧ count_events is_write (trace w') = 2%nat.
Proof.
  assert (∀ i, (i < 2)%nat →
            flaky_api (0 + i)%nat ["SERP tracking tools"]
            = Some (snapshot_of i ["SERP tracking tools"])) as Hapi.
  { intros i Hi. unfold flaky_api. by rewrite bool_decide_true by lia. }
  split; [lia|]. split; [exact Hapi|]. split; [reflexivity|].
  destruct (script_run_stops_at_failed_call neutral_polarity repr_whole parse_whole
              literal_engine iso_to_datetime id flaky_api minute_clock
              ["SERP tracking tools"] "serpdata" 60 3
              (λ i, snapshot_of i ["SERP tracking tools"]) 2
              [] "serp" SearchTerms (Some ex_session) (mkWorld 0 ∅ [])
              ltac:(lia) Hapi eq_refl)
    as (w' & t & Hrun & Htrace & Hcalls & _ & Hwrite & _).
  exists w'. split; [exact Hrun|]. split; [exact Hcalls|].
  simpl in Htrace. by rewrite Htrace.
Defined.



Lemma read_back_texts s col :
  is_na s = false → parse_whole s = None → parse_bool s = None →
  Forall text_cell (CStr s :: col) →
  read_back repr_whole parse_whole (CStr s :: col).
Proof.
  intros H1 H2 H3 Hcol. right. right. split; [exact Hcol|].
  split; apply Exists_cons_hd; by exists s.
Qed.

Lemma read_back_snapshot_of k :
  (k < 2)%nat →
  columns (snapshot_of k ["SERP tracking tools"]) !! "" = None
  ∧ read_back repr_whole parse_whole (index (snapshot_of k ["SERP tracking tools"]))
  ∧ map_Forall (λ _ col, read_back repr_whole parse_whole col)
      (columns (snapshot_of k ["SERP tracking tools"])).
Proof.
  intros Hk.
  assert (∀ s, is_na s = false → parse_whole s = None → parse_bool s = None →
            read_back repr_whole parse_whole [CStr s]) as Htext.
  { intros s H1 H2 H3. apply read_back_texts; try done.
    apply Forall_cons_2; [|apply Forall_nil_2]. right. by exists s. }
  assert (∀ q, is_na (repr_whole q) = false → parse_whole (repr_whole q) = Some q →
            read_back repr_whole parse_whole [CNum q]) as Hnum.
  { intros q H1 H2. left. apply Forall_cons_2; [|apply Forall_nil_2].
    right. by exists q. }
  destruct k as [|[|k]]; [| |lia].
  - split; [by vm_compute|]. split; [apply Hnum; by vm_compute|].
    apply map_Forall_list_to_map.
    repeat apply Forall_cons_2; try apply Forall_nil_2; simpl;
      try (apply Htext; by vm_compute); apply Hnum; by vm_compute.
  - split; [by vm_compute|]. split; [apply Hnum; by vm_compute|].
    apply map_Forall_list_to_map.
    repeat apply Forall_cons_2; try apply Forall_nil_2; simpl;
      try (apply Htext; by vm_compute); apply Hnum; by vm_compute.
Qed.

(** The files of two snapshots, uploaded, give the table of two rows the
    run merges the snapshots to. *)
Lemma upload_snapshot_files_witness :
  (parse_whole "True" = None ∧ parse_whole "False" = None)
  ∧ Forall (λ df,
              columns df !! "" = None
              ∧ read_back repr_whole parse_whole (index df)
              ∧ map_Forall (λ _ col, read_back repr_whole parse_whole col) (columns df))
      [snapshot_of 0 ["SERP tracking tools"]; snapshot_of 1 ["SERP tracking tools"]]
  ∧ upload parse_whole iso_to_datetime id
      [to_csv repr_whole "" (snapshot_of 0 ["SERP tracking tools"]);
       to_csv repr_whole "" (snapshot_of 1 ["SERP tracking tools"])]
    = merge_tables iso_to_datetime id
        [snapshot_of 0 ["SERP tracking tools"]; snapshot_of 1 ["SERP tracking tools"]].
Proof.
  assert (Forall (λ df,
              columns df !! "" = None
              ∧ read_back repr_whole parse_whole (index df)
              ∧ map_Forall (λ _ col, read_back repr_whole parse_whole col) (columns df))
      [snapshot_of 0 ["SERP tracking tools"]; snapshot_of 1 ["SERP tracking tools"]])
    as Hdfs.
  { repeat (apply Forall_cons_2; [apply read_back_snapshot_of; lia|]).
    apply Forall_nil_2. }
  split; [exact parse_whole_bool_words|]. split; [exact Hdfs|].
  exact (upload_snapshot_files repr_whole parse_whole iso_to_datetime id
           parse_whole_bool_words
           [snapshot_of 0 ["SERP tracking tools"]; snapshot_of 1 ["SERP tracking tools"]]
           Hdfs).
Defined.
